(** * Object-permissions panel: [object_permissions/media/js/users.js]

    A shallow embedding of the panel's event handlers and of the response
    reconciliation procedure [update_user_permissions], with the DOM, the
    popovers of the overlay library and the event bindings as explicit
    state.

    The script runs on jQuery 1.4.2 with its form plugin and the qTip
    overlay library; none of them is part of the repository. They are
    modelled at the level of the calls the script makes:
    - the selector engine is a parameter, [select]: given the text of a
      selector and the rows of the page it answers with the rows it
      selects, or raises a syntax error. What is known of it is stated
      where it is used ([by_id_in_container], [by_id_in_document]): a
      selector built from a plain name (letters, digits, [_] and [-])
      selects by identifier; nothing is assumed of any other text;
    - the rows of the panel are the children of [#op_users], in document
      order, and they are the only elements of the page that carry an
      identifier beginning with [user_] or [group_], and the only
      elements inside [#op_users] that carry an identifier at all; no
      other element of the page, the container included, has the
      identifier of a row;
    - [$('.qtip').qtip('destroy')] removes every rendered popover,
      [$('.qtip').qtip('hide')] hides every one, and [$(el).qtip(opts)]
      with [show: {ready: true}] renders one, visible, and fetches its
      content;
    - [#errors] is an element of the page that is outside the row
      container;
    - an exception raised inside a callback ends that callback; the page
      stays as the statements before it left it. *)

From Stdlib Require Import String Ascii List Bool Arith Lia DecimalString.
From Stdlib Require DecimalNat.
Import ListNotations.

Local Open Scope string_scope.
Local Open Scope list_scope.

(** JavaScript's [+] on strings. *)
Local Infix "+++" := String.append (right associativity, at level 60).

(** ** JavaScript values *)

(** The values a decoded response body (or a global of the page) can be.
    A number is kept as its decimal rendering, the only thing the script
    can observe of it (through string concatenation). The properties of an
    object are listed in the order [for ... in] enumerates them. *)
#[warnings="-register-all"]
Inductive jsval : Type :=
| JUndefined
| JNull
| JBool (b : bool)
| JNum (repr : string)
| JString (s : string)
| JArray (items : list jsval)
| JObject (props : list (string * jsval)).

(** [typeof v] *)
Definition js_typeof (v : jsval) : string :=
  match v with
  | JUndefined => "undefined"
  | JNull => "object"
  | JBool _ => "boolean"
  | JNum _ => "number"
  | JString _ => "string"
  | JArray _ => "object"
  | JObject _ => "object"
  end.

(** [String(v)], as string concatenation applies it. An array is its
    elements joined by commas, [null] and [undefined] elements being
    empty. *)
Fixpoint js_to_string (v : jsval) : string :=
  match v with
  | JUndefined => "undefined"
  | JNull => "null"
  | JBool true => "true"
  | JBool false => "false"
  | JNum repr => repr
  | JString s => s
  | JArray items =>
      String.concat ","
        (map (fun x => match x with
                       | JUndefined | JNull => ""
                       | _ => js_to_string x
                       end) items)
  | JObject _ => "[object Object]"
  end.

(** [!v]: the values JavaScript takes for false. *)
Definition js_falsy (v : jsval) : bool :=
  match v with
  | JUndefined | JNull | JBool false => true
  | JString s => String.eqb s ""
  | JNum repr => String.eqb repr "0" || String.eqb repr "NaN"
  | _ => false
  end.

(** The decimal rendering of an array index. *)
Definition index_key (n : nat) : string := NilZero.string_of_uint (Nat.to_uint n).

(** The keys [for (var key in v)] visits. *)
Definition for_in_keys (v : jsval) : list string :=
  match v with
  | JObject props => map fst props
  | JArray items => map index_key (seq 0 (length items))
  | JString s => map index_key (seq 0 (String.length s))
  | JUndefined | JNull | JBool _ | JNum _ => []
  end.

Fixpoint assoc_get (k : string) (props : list (string * jsval)) : jsval :=
  match props with
  | [] => JUndefined
  | (k', v) :: rest => if String.eqb k' k then v else assoc_get k rest
  end.

Fixpoint index_get (k : string) (n : nat) (items : list jsval) : jsval :=
  match items with
  | [] => JUndefined
  | x :: rest => if String.eqb (index_key n) k then x else index_get k (S n) rest
  end.

(** [v[key]] *)
Definition js_get (v : jsval) (k : string) : jsval :=
  match v with
  | JObject props => assoc_get k props
  | JArray items => index_get k 0 items
  | _ => JUndefined
  end.

(** [s.substring(n)]: [s] without its first [n] characters (the empty
    string when [s] is shorter). A string is the sequence of its
    characters, one per UTF-16 code unit: the identifiers the properties
    below rest on are plain names, which are ASCII. *)
Fixpoint js_substring (n : nat) (s : string) : string :=
  match n, s with
  | O, _ => s
  | S n', String _ rest => js_substring n' rest
  | S _, EmptyString => EmptyString
  end.

(** ** Plain names *)

(** The characters of [[\w-]]. *)
Definition name_char (c : ascii) : bool :=
  let n := nat_of_ascii c in
  (Nat.leb 48 n && Nat.leb n 57)
  || (Nat.leb 65 n && Nat.leb n 90)
  || (Nat.leb 97 n && Nat.leb n 122)
  || Nat.eqb n 95
  || Nat.eqb n 45.

Fixpoint name_chars (s : string) : bool :=
  match s with
  | EmptyString => true
  | String c rest => name_char c && name_chars rest
  end.

(** A name jQuery reads as an identifier wherever it stands in a
    selector: [[\w-]+]. *)
Definition plain_name (s : string) : bool :=
  match s with
  | EmptyString => false
  | _ => name_chars s
  end.

(** ** The page *)

(** A row of the user list: the element [this.parentNode.parentNode] of a
    delete control. [row_id] is its [id] (empty when it has none),
    [row_name] the markup inside its first [.name] child, if it has one. *)
Record row : Type := mk_row {
  row_id : string;
  row_classes : list string;
  row_name : option string;
  row_html : string
}.

Definition has_id (id : string) (r : row) : bool := String.eqb (row_id r) id.

Definition has_class (c : string) (r : row) : bool :=
  existsb (String.eqb c) (row_classes r).

(** The elements the script's handlers are bound to. A delete control
    comes with its grandparent [r] and with [outer], the classes that its
    other ancestors carry. *)
Inductive target : Type :=
| AddUserButton                                       (* [#add_user] *)
| DeleteControl (r : row) (outer : list string)       (* a [.delete] *)
| PermissionsLink (href : string)                     (* a [.permissions] link *)
| OtherElement.

(** The two operations that open a popover. *)
Inductive open_op : Type :=
| OpenAddUser
| OpenPermissions (href : string).

(** The control an operation clicks on. *)
Definition open_target (op : open_op) : target :=
  match op with
  | OpenAddUser => AddUserButton
  | OpenPermissions href => PermissionsLink href
  end.

(** The options the script passes to [qtip]. *)
Record qtip_options : Type := mk_options {
  content_url : string;
  title_text : string;
  corner_target : string;
  corner_tooltip : string;
  style_tip : option string
}.

(** A rendered popover. [pop_submit_bound] counts the submit handlers
    that [bind_user_perm_form] has put on the form inside it. *)
Record popover : Type := mk_popover {
  pop_target : target;
  pop_options : qtip_options;
  pop_visible : bool;
  pop_submit_bound : nat
}.

Record dom : Type := mk_dom {
  qtips : list popover;     (* [$('.qtip')] *)
  op_users : list row;      (* the children of [#op_users] *)
  errors : list string      (* the markup appended to [#errors], in order *)
}.

Definition set_qtips (f : list popover -> list popover) (d : dom) : dom :=
  mk_dom (f (qtips d)) (op_users d) (errors d).

Definition set_op_users (f : list row -> list row) (d : dom) : dom :=
  mk_dom (qtips d) (f (op_users d)) (errors d).

Definition set_errors (f : list string -> list string) (d : dom) : dom :=
  mk_dom (qtips d) (op_users d) (f (errors d)).

(** *** The overlay library *)

(** [$('.qtip').qtip('destroy')] *)
Definition qtip_destroy (d : dom) : dom := set_qtips (fun _ => []) d.

Definition hide (p : popover) : popover :=
  mk_popover (pop_target p) (pop_options p) false (pop_submit_bound p).

(** [$('.qtip').qtip('hide')] *)
Definition qtip_hide (d : dom) : dom := set_qtips (map hide) d.

(** [$(this).qtip(opts)] with [show: {when: false, ready: true}] *)
Definition qtip_create (this : target) (opts : qtip_options) (d : dom) : dom :=
  set_qtips (fun ps => ps ++ [mk_popover this opts true 0]) d.

(** *** Selections *)

(** What the selector engine answers: the rows it selects, as one flag
    per row of the page in document order, or a syntax error. *)
Inductive selection : Type :=
| Found (mask : list bool)
| Throws.

(** The selector engine: from the text of a selector and the rows of the
    page to a selection. *)
Definition engine : Type := string -> list row -> selection.

(** [$sel.length] *)
Fixpoint select_count (mask : list bool) (rows : list row) : nat :=
  match rows, mask with
  | _ :: rows', true :: mask' => S (select_count mask' rows')
  | _ :: rows', false :: mask' => select_count mask' rows'
  | _, _ => 0
  end.

(** [$sel.remove()] *)
Fixpoint remove_selected (mask : list bool) (rows : list row) : list row :=
  match rows, mask with
  | _ :: rows', true :: mask' => remove_selected mask' rows'
  | r :: rows', false :: mask' => r :: remove_selected mask' rows'
  | _, _ => rows
  end.

(** [$sel.replaceWith(html)] *)
Fixpoint replace_selected (mask : list bool) (html rows : list row) : list row :=
  match rows, mask with
  | _ :: rows', true :: mask' => html ++ replace_selected mask' html rows'
  | r :: rows', false :: mask' => r :: replace_selected mask' html rows'
  | _, _ => rows
  end.

(** Every row with identifier [id]: what [querySelectorAll] finds. *)
Definition all_with_id (id : string) (rows : list row) : list bool :=
  map (has_id id) rows.

(** The first row with identifier [id]: what [getElementById] finds. *)
Fixpoint first_with_id (id : string) (rows : list row) : list bool :=
  match rows with
  | [] => []
  | r :: rest =>
      if has_id id r then true :: map (fun _ => false) rest
      else false :: first_with_id id rest
  end.

(** [$("#op_users").append(html)] *)
Definition append_to_op_users (html : list row) (d : dom) : dom :=
  set_op_users (fun rows => rows ++ html) d.

(** [html.attr('id')], used in a string concatenation: the id of the
    first element of the set (empty when it has none), [undefined] for
    the empty set. *)
Definition attr_id (html : list row) : string :=
  match html with
  | r :: _ => row_id r
  | [] => js_to_string JUndefined
  end.

(** [$("#errors").empty()] *)
Definition errors_empty (d : dom) : dom := set_errors (fun _ => []) d.

(** [$("#errors").append(markup)] *)
Definition errors_append (markup : string) (d : dom) : dom :=
  set_errors (fun es => es ++ [markup]) d.

(** How a callback ends. *)
Inductive completion : Type :=
| Returned
| Threw.

(** ** Requests *)

(** The functions the script passes as success callbacks. *)
Inductive callback : Type :=
| DeleteUserSuccess (id : string)     (* the closure of lines 52-57 *)
| DeleteGroupSuccess (id : string)    (* the closure of lines 69-74 *)
| UpdateUserPermissions.              (* [update_user_permissions] *)

(** The options object of [ajaxSubmit]. *)
Record ajax_options : Type := mk_ajax_options {
  opt_success : option callback;
  opt_error : option callback
}.

Inductive request : Type :=
| Post (url : string) (data : list (string * jsval)) (success : callback)
       (dataType : string)                        (* [$.post(url, data, fn, type)] *)
| AjaxSubmit (form : nat) (opts : ajax_options)   (* [$(form).ajaxSubmit(opts)] *)
| QtipContent (url : string).                     (* the overlay's fetch of [content.url] *)

(** How a request ends: with a response, whose body jQuery has decoded;
    with the connection dropped before any response, which jQuery 1.4.2
    takes for a success (status 0) with an empty body; or on jQuery's
    error path (an error status, a body that does not decode). *)
Inductive outcome : Type :=
| Succeeded (body : jsval) (content_type : option string)
| Dropped
| Failed.

Definition success_callback (q : request) : option callback :=
  match q with
  | Post _ _ success _ => Some success
  | AjaxSubmit _ opts => opt_success opts
  | QtipContent _ => None
  end.

(** [$.post] takes no error callback. *)
Definition error_callback (q : request) : option callback :=
  match q with
  | Post _ _ _ _ => None
  | AjaxSubmit _ opts => opt_error opts
  | QtipContent _ => None
  end.

(** What the success callback receives when the connection was dropped:
    the empty text, decoded as JSON ([null]) where the request asked for
    JSON. *)
Definition dropped_body (q : request) : jsval :=
  match q with
  | Post _ _ _ dataType => if String.eqb dataType "json" then JNull else JString ""
  | _ => JString ""
  end.

(** [xhr.getResponseHeader('Content-Type') == 'application/json'] *)
Definition is_json (content_type : option string) : bool :=
  match content_type with
  | Some ct => String.eqb ct "application/json"
  | None => false
  end.

(** ** The script *)

Section Panel.

(** [var user_url; var obj_id;] *)
Variable user_url : string.
Variable obj_id : jsval.

(** The browser's [confirm]: the answer to a prompt. *)
Variable confirm : string -> bool.

(** jQuery's selector engine. *)
Variable select : engine.

(** The elements jQuery builds from a body of markup. *)
Variable jq : jsval -> list row.

(** [$(v)]: the empty set for a value that counts as false, among them
    the empty text. *)
Definition jquery_of (v : jsval) : list row :=
  if js_falsy v then [] else jq v.

(** *** Response reconciliation (lines 101-127) *)

(** Of its four parameters the function reads [responseText] and the
    [Content-Type] header of [xhr]. *)
Definition update_user_permissions
    (responseText : jsval) (content_type : option string) (d : dom)
  : dom * completion :=
  if is_json content_type then
    let type := js_typeof responseText in
    if String.eqb type "string" then
      let d := qtip_hide d in
      match select ("#op_users #" +++ js_to_string responseText) (op_users d) with
      | Found mask => (set_op_users (remove_selected mask) d, Returned)
      | Throws => (d, Threw)
      end
    else
      (fold_left
         (fun d key =>
            errors_append ("<li>" +++ js_to_string (js_get responseText key) +++ "</li>") d)
         (for_in_keys responseText) d,
       Returned)
  else
    let d := qtip_hide d in
    let html := jquery_of responseText in
    let id := attr_id html in
    match select ("#op_users #" +++ id) (op_users d) with
    | Found row =>
        if Nat.eqb (select_count row (op_users d)) 1
        then (set_op_users (replace_selected row html) d, Returned)
        else (append_to_op_users html d, Returned)
    | Throws => (d, Threw)
    end.

(** *** The form (lines 36-42) *)

(** The submit handler of form [form]; it returns [false]. *)
Definition submit_handler (form : nat) (d : dom) : dom * list request :=
  let d := errors_empty d in
  (d, [AjaxSubmit form (mk_ajax_options (Some UpdateUserPermissions) None)]).

Definition bind_submit (p : popover) : popover :=
  mk_popover (pop_target p) (pop_options p) (pop_visible p) (S (pop_submit_bound p)).

(** [$(".object_permissions_form").submit(...)]: one more submit handler
    on every form of the page. *)
Definition bind_user_perm_form (d : dom) : dom := set_qtips (map bind_submit) d.

(** The [onShow] callback of both popovers (the focus it sets is not
    part of the state). *)
Definition on_show (d : dom) : dom := bind_user_perm_form d.

(** *** Add user (lines 17-33) *)

Definition add_user_options : qtip_options :=
  mk_options user_url "Add User: " "center" "center" None.

Definition add_user_click (this : target) (d : dom) : dom * list request :=
  let d := qtip_destroy d in
  (qtip_create this add_user_options d, [QtipContent user_url]).

(** *** Delete user (lines 45-60) *)

(** [$(this).parent().parent().children('.name').html()] *)
Definition name_html (r : row) : jsval :=
  match row_name r with
  | Some markup => JString markup
  | None => JNull
  end.

Definition delete_user_click (r : row) (d : dom) : dom * list request :=
  let name := name_html r in
  if confirm ("Remove this user: " +++ js_to_string name) then
    let d := qtip_destroy d in
    let id := js_substring 5 (row_id r) in
    let data := [("user", JString id); ("obj", obj_id)] in
    (d, [Post user_url data (DeleteUserSuccess id) "json"])
  else (d, []).

Definition delete_user_success (id : string) (code : jsval) (d : dom)
  : dom * completion :=
  let type := js_typeof code in
  if String.eqb type "string" then
    match select ("#user_" +++ id) (op_users d) with
    | Found mask => (set_op_users (remove_selected mask) d, Returned)
    | Throws => (d, Threw)
    end
  else (d, Returned).

(** *** Delete group (lines 63-77) *)

Definition delete_group_click (r : row) (d : dom) : dom * list request :=
  let name := name_html r in
  if confirm ("Remove this group: " +++ js_to_string name) then
    let id := js_substring 6 (row_id r) in
    let data := [("group", JString id); ("obj", obj_id)] in
    (d, [Post user_url data (DeleteGroupSuccess id) "json"])
  else (d, []).

Definition delete_group_success (id : string) (code : jsval) (d : dom)
  : dom * completion :=
  let type := js_typeof code in
  if String.eqb type "string" then
    match select ("#group_" +++ id) (op_users d) with
    | Found mask => (set_op_users (remove_selected mask) d, Returned)
    | Throws => (d, Threw)
    end
  else (d, Returned).

(** *** Edit permissions (lines 80-98) *)

Definition permissions_options (href : string) : qtip_options :=
  mk_options href "Permissions: " "rightMiddle" "leftMiddle" (Some "leftMiddle").

(** The handler returns [false]: the link is not followed. *)
Definition permissions_click (href : string) (d : dom) : dom * list request :=
  let d := qtip_destroy d in
  (qtip_create (PermissionsLink href) (permissions_options href) d,
   [QtipContent href]).

(** *** Responses *)

Definition run_callback (c : callback) (body : jsval)
    (content_type : option string) (d : dom) : dom * completion :=
  match c with
  | DeleteUserSuccess id => delete_user_success id body d
  | DeleteGroupSuccess id => delete_group_success id body d
  | UpdateUserPermissions => update_user_permissions body content_type d
  end.

(** The page after request [q] has ended. A callback that was not given
    is not called; an error callback, were one given, would be called
    without a decoded body. After a dropped connection the success
    callback runs, on [dropped_body] and with no header. *)
Definition deliver (q : request) (o : outcome) (d : dom) : dom :=
  match o with
  | Succeeded body content_type =>
      match success_callback q with
      | Some c => fst (run_callback c body content_type d)
      | None => d
      end
  | Dropped =>
      match success_callback q with
      | Some c => fst (run_callback c (dropped_body q) None d)
      | None => d
      end
  | Failed =>
      match error_callback q with
      | Some c => fst (run_callback c JUndefined None d)
      | None => d
      end
  end.

(** *** Initialization (lines 7-14) and event dispatch *)

(** The functions the script binds to clicks. *)
Inductive handler : Type :=
| HAddUser | HDeleteUser | HDeleteGroup | HPermissions.

Definition handler_eq_dec (a b : handler) : {a = b} + {a <> b}.
Proof. decide equality. Defined.

(** The selectors the script passes to [live] and [die]. *)
Inductive selector : Type :=
| SubmitButtons | UserDelete | GroupDelete | Permissions.

Definition selector_text (s : selector) : string :=
  match s with
  | SubmitButtons => ".object_permissions_form .submit"
  | UserDelete => ".user .delete"
  | GroupDelete => ".group .delete"
  | Permissions => ".permissions"
  end.

Definition selector_eqb (a b : selector) : bool :=
  String.eqb (selector_text a) (selector_text b).

(** The handlers bound on [#add_user], and the [live] handlers with
    their selector and event type, both in binding order. *)
Record bindings : Type := mk_bindings {
  add_user_bound : list (string * handler);
  live_bound : list (selector * string * handler)
}.

(** [$('#add_user').unbind()] *)
Definition unbind_add_user (b : bindings) : bindings :=
  mk_bindings [] (live_bound b).

(** [$(sel).die()] *)
Definition die (sel : selector) (b : bindings) : bindings :=
  mk_bindings (add_user_bound b)
    (filter (fun e => negb (selector_eqb (fst (fst e)) sel)) (live_bound b)).

(** [$('#add_user').click(h)] *)
Definition bind_add_user_click (h : handler) (b : bindings) : bindings :=
  mk_bindings (add_user_bound b ++ [("click", h)]) (live_bound b).

(** [$(sel).live(type, h)] *)
Definition live (sel : selector) (type : string) (h : handler) (b : bindings)
  : bindings :=
  mk_bindings (add_user_bound b) (live_bound b ++ [(sel, type, h)]).

(** The function passed to [$(document).ready]. *)
Definition ready (b : bindings) : bindings :=
  let b := unbind_add_user b in
  let b := die SubmitButtons b in
  let b := die UserDelete b in
  let b := die GroupDelete b in
  let b := die Permissions b in
  let b := bind_add_user_click HAddUser b in
  let b := live UserDelete "click" HDeleteUser b in
  let b := live GroupDelete "click" HDeleteGroup b in
  live Permissions "click" HPermissions b.

(** A delete control is inside an element of class [c] when its
    grandparent or another of its ancestors carries the class. *)
Definition inside (c : string) (r : row) (outer : list string) : bool :=
  has_class c r || existsb (String.eqb c) outer.

(** Whether an element is selected by one of the script's selectors. *)
Definition selects (sel : selector) (t : target) : bool :=
  match sel, t with
  | UserDelete, DeleteControl r outer => inside "user" r outer
  | GroupDelete, DeleteControl r outer => inside "group" r outer
  | Permissions, PermissionsLink _ => true
  | _, _ => false
  end.

(** The handlers a click on [t] runs: those bound on the element, then
    the [live] ones whose selector selects it. *)
Definition fired (b : bindings) (t : target) : list handler :=
  (match t with
   | AddUserButton =>
       map snd (filter (fun e => String.eqb (fst e) "click") (add_user_bound b))
   | _ => []
   end)
  ++ map snd
       (filter (fun e => selects (fst (fst e)) t && String.eqb (snd (fst e)) "click")
               (live_bound b)).

Definition run_handler (h : handler) (this : target) (d : dom)
  : dom * list request :=
  match h, this with
  | HAddUser, _ => add_user_click this d
  | HDeleteUser, DeleteControl r _ => delete_user_click r d
  | HDeleteGroup, DeleteControl r _ => delete_group_click r d
  | HPermissions, PermissionsLink href => permissions_click href d
  | _, _ => (d, [])
  end.

(** A click on [t]: every handler it fires, in order; the requests they
    send are collected. *)
Definition click (b : bindings) (t : target) (d : dom) : dom * list request :=
  fold_left
    (fun acc h =>
       let '(d', sent) := run_handler h t (fst acc) in
       (d', snd acc ++ sent))
    (fired b t) (d, []).

(** *** Runs *)

(** The pages after each of a sequence of clicks. *)
Fixpoint pages_after (b : bindings) (ts : list target) (d : dom) : list dom :=
  match ts with
  | [] => []
  | t :: ts' =>
      let d' := fst (click b t d) in
      d' :: pages_after b ts' d'
  end.

(** The popover an operation opens. *)
Definition opened (op : open_op) : popover :=
  match op with
  | OpenAddUser => mk_popover AddUserButton add_user_options true 0
  | OpenPermissions href =>
      mk_popover (PermissionsLink href) (permissions_options href) true 0
  end.

(** A request whose failure leaves the page as it is. *)
Definition unchanged_on_failure (q : request) : Prop :=
  forall d : dom, deliver q Failed d = d.

(** The shape of the requests the delete handlers send. *)
Definition delete_request (q : request) : Prop :=
  exists kind id cb,
    q = Post user_url [(kind, JString id); ("obj", obj_id)] cb "json"
    /\ (kind = "user" /\ cb = DeleteUserSuccess id
        \/ kind = "group" /\ cb = DeleteGroupSuccess id).

(** The overlay's fetch of the content of a popover. *)
Definition content_request (q : request) : Prop :=
  exists url, q = QtipContent url.

(** *** Events *)

(** The number of submit handlers on the form of the popover at position
    [form] (none when there is no such popover). *)
Definition submit_bound (form : nat) (d : dom) : nat :=
  match nth_error (qtips d) form with
  | Some p => pop_submit_bound p
  | None => 0
  end.

(** A submit of that form: every handler bound on it runs; the requests
    they send are collected. *)
Definition submit (form : nat) (d : dom) : dom * list request :=
  Nat.iter (submit_bound form d)
    (fun acc =>
       let '(d', sent) := submit_handler form (fst acc) in
       (d', snd acc ++ sent))
    (d, []).

(** What can happen to the page: a click, the overlay library showing
    the popover (which calls [onShow]), a submit, the end of a request. *)
Inductive event : Type :=
| Click (t : target)
| Shown
| Submit (form : nat)
| Response (q : request) (o : outcome).

Definition step (b : bindings) (e : event) (d : dom) : dom :=
  match e with
  | Click t => fst (click b t d)
  | Shown => on_show d
  | Submit form => fst (submit form d)
  | Response q o => deliver q o d
  end.

Definition run (b : bindings) (es : list event) (d : dom) : dom :=
  fold_left (fun d e => step b e d) es d.

End Panel.

(** ** What is known of the selector engine *)

(** Inside the container a plain name selects by identifier: every row
    with that identifier where the browser's [querySelectorAll] answers
    the selector, the first one where jQuery searches itself. *)
Definition by_id_in_container (select : engine) : Prop :=
  forall (n : string) (rows : list row),
    plain_name n = true ->
    select ("#op_users #" +++ n) rows = Found (all_with_id n rows)
    \/ select ("#op_users #" +++ n) rows = Found (first_with_id n rows).

(** [$("#user_" + x)] and [$("#group_" + x)], for [x] made of name
    characters, are [getElementById]: the first row with that
    identifier. *)
Definition by_id_in_document (select : engine) : Prop :=
  forall (x : string) (rows : list row),
    name_chars x = true ->
    select ("#user_" +++ x) rows = Found (first_with_id ("user_" +++ x) rows)
    /\ select ("#group_" +++ x) rows = Found (first_with_id ("group_" +++ x) rows).

(** ** Vocabulary of the properties *)

(** [rows] without the first row of identifier [id]. *)
Fixpoint remove_first (id : string) (rows : list row) : list row :=
  match rows with
  | [] => []
  | r :: rest => if has_id id r then rest else r :: remove_first id rest
  end.

(** No row of [rows] has identifier [id]. *)
Definition no_row (id : string) (rows : list row) : Prop :=
  forall r, In r rows -> row_id r <> id.


(** The list item the loop of lines 110-112 appends for [key]. *)
Definition error_item (responseText : jsval) (key : string) : string :=
  "<li>" +++ js_to_string (js_get responseText key) +++ "</li>".

(** The rows of the container have pairwise distinct identifiers. *)
Definition unique_ids (d : dom) : Prop := NoDup (map row_id (op_users d)).

(** What a success callback of a delete handler left of [d]: it
    returned, and the first row with identifier [id], if there is one,
    went away: the rows before it and all the rows after it, those with
    the same identifier among them, are where they were. *)
Definition removed_first (id : string) (d : dom) (result : dom * completion) : Prop :=
  snd result = Returned
  /\ qtips (fst result) = qtips d
  /\ errors (fst result) = errors d
  /\ (forall l1 r l2,
        op_users d = l1 ++ r :: l2 -> row_id r = id -> no_row id l1 ->
        op_users (fst result) = l1 ++ l2)
  /\ (no_row id (op_users d) -> op_users (fst result) = op_users d).



(** What [ready] leaves bound. *)
Definition bound_once : bindings :=
  mk_bindings [("click", HAddUser)]
    [(UserDelete, "click", HDeleteUser);
     (GroupDelete, "click", HDeleteGroup);
     (Permissions, "click", HPermissions)].

(** ** A sample engine *)

Fixpoint strip_prefix (p s : string) : option string :=
  match p with
  | EmptyString => Some s
  | String a p' =>
      match s with
      | String b s' => if Ascii.eqb a b then strip_prefix p' s' else None
      | EmptyString => None
      end
  end.

(** [s] around the first occurrence of [sep]. *)
Fixpoint split_at (sep s : string) : option (string * string) :=
  match strip_prefix sep s with
  | Some rest => Some (EmptyString, rest)
  | None =>
      match s with
      | EmptyString => None
      | String c s' =>
          match split_at sep s' with
          | Some (a, b) => Some (String c a, b)
          | None => None
          end
      end
  end.

Fixpoint mask_or (a b : list bool) : list bool :=
  match a, b with
  | x :: a', y :: b' => (x || y) :: mask_or a' b'
  | _, _ => []
  end.

Fixpoint mask_and (a b : list bool) : list bool :=
  match a, b with
  | x :: a', y :: b' => (x && y) :: mask_and a' b'
  | _, _ => []
  end.

Definition by_id (qsa : bool) (id : string) (rows : list row) : list bool :=
  if qsa then all_with_id id rows else first_with_id id rows.

(** jQuery 1.4.2's engine on the selectors the examples below use, in a
    browser with [querySelectorAll] ([qsa]) or without:
    - ["#op_users #n"] and ["#n"] for a plain name [n], by identifier;
    - ["#op_users #n, #m"], a list of two selectors: either one;
    - ["#n.c"]: identifier [n] and class [c];
    - ["#op_users #"], with nothing after the sign: a syntax error.
    On any other text its answer, a syntax error, stands for nothing. *)
Definition sizzle (qsa : bool) : engine := fun sel rows =>
  match strip_prefix "#op_users #" sel with
  | Some rest =>
      if plain_name rest then Found (by_id qsa rest rows)
      else
        match split_at ", #" rest with
        | Some (n, m) =>
            if plain_name n && plain_name m
            then Found (mask_or (by_id qsa n rows) (by_id qsa m rows))
            else Throws
        | None => Throws
        end
  | None =>
      match strip_prefix "#" sel with
      | Some rest =>
          if plain_name rest then Found (first_with_id rest rows)
          else
            match split_at "." rest with
            | Some (n, c) =>
                if plain_name n && plain_name c
                then Found (mask_and (by_id qsa n rows) (map (has_class c) rows))
                else Throws
            | None => Throws
            end
      | None => Throws
      end
  end.

(** ** Concrete pages *)

Definition row7 : row := mk_row "user_7" ["user"] (Some "ann") "<td>view</td>".
Definition row7' : row := mk_row "user_7" ["user"] (Some "ann") "<td>view, edit</td>".
Definition row8 : row := mk_row "user_8" ["user"] (Some "bob") "<td>view</td>".
Definition group13 : row := mk_row "group_13" ["group"] (Some "staff") "<td>edit</td>".

(** A row whose identifier holds a dot, and a rendered row without
    identifier. *)
Definition row_dotted : row :=
  mk_row "user_john.doe" ["user"] (Some "john") "<td>view</td>".
Definition row_anonymous : row := mk_row "" ["user"] (Some "eve") "<td>view</td>".

Definition markup7 : string := "<tr id='user_7' class='user'>...</tr>".
Definition markup_anonymous : string := "<tr class='user'>...</tr>".

(** jQuery on a page whose markup responses are those two. *)
Definition jq7 (v : jsval) : list row :=
  match v with
  | JString s =>
      if String.eqb s markup7 then [row7']
      else if String.eqb s markup_anonymous then [row_anonymous]
      else []
  | _ => []
  end.

Definition an_open_popover : popover :=
  mk_popover (PermissionsLink "/perms/7")
    (mk_options "/perms/7" "Permissions: " "rightMiddle" "leftMiddle" (Some "leftMiddle"))
    true 1.

Definition page (rows : list row) : dom := mk_dom [an_open_popover] rows [].

(** A group row whose identifier does not follow the [group_] scheme. *)
Definition team13 : row := mk_row "team_13" ["group"] (Some "ops") "<td>view</td>".

(** A user who gives the same answer to every prompt. *)
Definition always (answer : bool) (prompt : string) : bool := answer.

(** * Properties *)

(** ** JavaScript values *)

Example js_substring_user : js_substring 5 "user_42" = "42".
Proof. reflexivity. Qed.

Example js_substring_short : js_substring 5 "usr" = "".
Proof. reflexivity. Qed.

Example js_to_string_array :
  js_to_string (JArray [JString "a"; JNull; JNum "3"]) = "a,,3".
Proof. reflexivity. Qed.

Lemma js_substring_app (p s : string) :
  js_substring (String.length p) (p +++ s) = s.
Proof. induction p as [|c p IH]; simpl; [destruct s|]; auto. Qed.

Lemma typeof_string (v : jsval) :
  String.eqb (js_typeof v) "string" = true -> exists s, v = JString s.
Proof. destruct v; simpl; try discriminate; eauto. Qed.

Lemma typeof_not_string (v : jsval) :
  js_typeof v <> "string" -> String.eqb (js_typeof v) "string" = false.
Proof. intros H. apply String.eqb_neq. exact H. Qed.

Lemma name_chars_substring (n : nat) (s : string) :
  name_chars s = true -> name_chars (js_substring n s) = true.
Proof.
  revert s. induction n as [|n IH]; intros s H; [exact H|].
  destruct s as [|c s]; [reflexivity|]. simpl in *.
  apply andb_true_iff in H as [_ H]. apply IH. exact H.
Qed.

Lemma plain_name_chars (s : string) : plain_name s = true -> name_chars s = true.
Proof. destruct s; [discriminate | intros H; exact H]. Qed.

(** ** The sample engine is an engine of the kind assumed *)

Lemma sizzle_in_container (qsa : bool) : by_id_in_container (sizzle qsa).
Proof.
  intros n rows H. unfold sizzle.
  change (strip_prefix "#op_users #" ("#op_users #" +++ n)) with (Some n).
  cbv beta iota. rewrite H. destruct qsa; [left | right]; reflexivity.
Qed.

Lemma sizzle_in_document (qsa : bool) : by_id_in_document (sizzle qsa).
Proof.
  intros x rows H. unfold sizzle. split.
  - change (strip_prefix "#op_users #" ("#user_" +++ x)) with (@None string).
    change (strip_prefix "#" ("#user_" +++ x)) with (Some ("user_" +++ x)).
    assert (E : plain_name ("user_" +++ x) = true) by (simpl; exact H).
    cbv beta iota. rewrite E. reflexivity.
  - change (strip_prefix "#op_users #" ("#group_" +++ x)) with (@None string).
    change (strip_prefix "#" ("#group_" +++ x)) with (Some ("group_" +++ x)).
    assert (E : plain_name ("group_" +++ x) = true) by (simpl; exact H).
    cbv beta iota. rewrite E. reflexivity.
Qed.

(** ** Rows *)

Lemma has_id_true (id : string) (r : row) : has_id id r = true <-> row_id r = id.
Proof. unfold has_id. apply String.eqb_eq. Qed.

Lemma has_id_false (id : string) (r : row) : has_id id r = false <-> row_id r <> id.
Proof. unfold has_id. apply String.eqb_neq. Qed.

Lemma no_row_cons (id : string) (r : row) (rows : list row) :
  no_row id (r :: rows) <-> row_id r <> id /\ no_row id rows.
Proof.
  unfold no_row; split.
  - intros H; split; [apply H; left; reflexivity | intros q Hq; apply H; right; exact Hq].
  - intros [Hr Hrest] q [<- | Hq]; auto.
Qed.

Lemma no_row_not_in (id : string) (rows : list row) :
  no_row id rows <-> ~ In id (map row_id rows).
Proof.
  unfold no_row. rewrite in_map_iff. split.
  - intros H (r & Hr & Hin). exact (H r Hin Hr).
  - intros H r Hin Hr. apply H. exists r. split; assumption.
Qed.

Lemma filter_no_row (id : string) (rows : list row) :
  no_row id rows -> filter (has_id id) rows = [].
Proof.
  induction rows as [|r rows IH]; simpl; intros H; [reflexivity|].
  apply no_row_cons in H as [Hr Hrest].
  apply has_id_false in Hr. rewrite Hr. auto.
Qed.

Lemma filter_empty_no_row (id : string) (rows : list row) :
  filter (has_id id) rows = [] -> no_row id rows.
Proof.
  induction rows as [|r rows IH]; simpl; intros H q Hq; [contradiction|].
  destruct (has_id id r) eqn:E; [discriminate|].
  destruct Hq as [<- | Hq]; [apply has_id_false; exact E | apply IH; assumption].
Qed.

Lemma filter_length_zero_no_row (id : string) (rows : list row) :
  length (filter (has_id id) rows) = 0 -> no_row id rows.
Proof. intros H. apply filter_empty_no_row, length_zero_iff_nil, H. Qed.

Lemma filter_rest_no_row (id : string) (rows : list row) :
  no_row id rows -> filter (fun r => negb (has_id id r)) rows = rows.
Proof.
  induction rows as [|r rows IH]; simpl; intros H; [reflexivity|].
  apply no_row_cons in H as [Hr Hrest].
  apply has_id_false in Hr. rewrite Hr. simpl. f_equal. auto.
Qed.

Lemma remove_first_no_row (id : string) (rows : list row) :
  no_row id rows -> remove_first id rows = rows.
Proof.
  induction rows as [|r rows IH]; simpl; intros H; [reflexivity|].
  apply no_row_cons in H as [Hr Hrest].
  apply has_id_false in Hr. rewrite Hr. f_equal. auto.
Qed.

Lemma remove_first_split (id : string) (l1 l2 : list row) (r : row) :
  no_row id l1 -> row_id r = id -> remove_first id (l1 ++ r :: l2) = l1 ++ l2.
Proof.
  induction l1 as [|q l1 IH]; simpl; intros H Hr.
  - apply has_id_true in Hr. rewrite Hr. reflexivity.
  - apply no_row_cons in H as [Hq Hrest].
    apply has_id_false in Hq. rewrite Hq. f_equal. auto.
Qed.

Lemma remove_first_keeps (id : string) (r : row) (rows : list row) :
  In r rows -> row_id r <> id -> In r (remove_first id rows).
Proof.
  induction rows as [|q rows IH]; simpl; [tauto|].
  intros [<- | Hin] Hr.
  - apply has_id_false in Hr. rewrite Hr. left; reflexivity.
  - destruct (has_id id q); [exact Hin | right; auto].
Qed.

Lemma remove_first_rest (id : string) (rows : list row) :
  filter (fun r => negb (has_id id r)) (remove_first id rows)
  = filter (fun r => negb (has_id id r)) rows.
Proof.
  induction rows as [|r rows IH]; simpl; [reflexivity|].
  destruct (has_id id r) eqn:E; simpl; [reflexivity|].
  rewrite E. simpl. f_equal. exact IH.
Qed.

Lemma filter_rest_twice (id : string) (rows : list row) :
  filter (fun r => negb (has_id id r)) (filter (fun r => negb (has_id id r)) rows)
  = filter (fun r => negb (has_id id r)) rows.
Proof.
  induction rows as [|r rows IH]; simpl; [reflexivity|].
  destruct (has_id id r) eqn:E; simpl; [exact IH|].
  rewrite E. simpl. f_equal. exact IH.
Qed.

Lemma filter_rest_none (id : string) (rows : list row) :
  no_row id (filter (fun r => negb (has_id id r)) rows).
Proof.
  intros r Hin. apply filter_In in Hin as [_ H].
  apply negb_true_iff in H. apply has_id_false. exact H.
Qed.

Lemma unique_at_most_one (id : string) (rows : list row) :
  NoDup (map row_id rows) -> length (filter (has_id id) rows) <= 1.
Proof.
  induction rows as [|r rows IH]; simpl; intros H; [lia|].
  inversion H as [|? ? Hr Hrest]; subst.
  destruct (has_id id r) eqn:E; [|auto].
  apply has_id_true in E. subst id.
  apply no_row_not_in, filter_no_row in Hr. rewrite Hr. simpl. lia.
Qed.

(** A selection of exactly one row splits the container around it. *)
Lemma filter_one_split (id : string) (rows : list row) :
  length (filter (has_id id) rows) = 1 ->
  exists l1 r l2,
    rows = l1 ++ r :: l2 /\ row_id r = id /\ no_row id l1 /\ no_row id l2.
Proof.
  induction rows as [|q rows IH]; simpl; [discriminate|].
  destruct (has_id id q) eqn:E; simpl; intros H.
  - exists [], q, rows. repeat split.
    + apply has_id_true; exact E.
    + intros x [].
    + apply filter_empty_no_row. apply length_zero_iff_nil. lia.
  - destruct (IH H) as (l1 & r & l2 & -> & Hr & H1 & H2).
    exists (q :: l1), r, l2. repeat split; auto.
    apply no_row_cons; split; [apply has_id_false; exact E | exact H1].
Qed.


(** A first row with the identifier splits the container before it. *)
Lemma filter_some_split (id : string) (rows : list row) :
  1 <= length (filter (has_id id) rows) ->
  exists l1 r l2, rows = l1 ++ r :: l2 /\ row_id r = id /\ no_row id l1.
Proof.
  induction rows as [|q rows IH]; simpl; [lia|].
  destruct (has_id id q) eqn:E; simpl; intros H.
  - exists [], q, rows. repeat split; [apply has_id_true; exact E | intros x []].
  - destruct (IH H) as (l1 & r & l2 & -> & Hr & H1).
    exists (q :: l1), r, l2. repeat split; auto.
    apply no_row_cons; split; [apply has_id_false; exact E | exact H1].
Qed.

(** ** Selections by identifier *)

Lemma none_selected_count (rows : list row) :
  select_count (map (fun _ => false) rows) rows = 0.
Proof. induction rows; simpl; auto. Qed.

Lemma none_selected_remove (rows : list row) :
  remove_selected (map (fun _ => false) rows) rows = rows.
Proof. induction rows; simpl; [reflexivity | f_equal; auto]. Qed.

Lemma none_selected_replace (html rows : list row) :
  replace_selected (map (fun _ => false) rows) html rows = rows.
Proof. induction rows; simpl; [reflexivity | f_equal; auto]. Qed.

Lemma all_with_id_count (id : string) (rows : list row) :
  select_count (all_with_id id rows) rows = length (filter (has_id id) rows).
Proof.
  induction rows as [|r rows IH]; simpl; [reflexivity|].
  destruct (has_id id r); simpl; rewrite IH; reflexivity.
Qed.

Lemma first_with_id_count (id : string) (rows : list row) :
  select_count (first_with_id id rows) rows
  = Nat.min 1 (length (filter (has_id id) rows)).
Proof.
  induction rows as [|r rows IH]; simpl; [reflexivity|].
  destruct (has_id id r); simpl.
  - rewrite none_selected_count. reflexivity.
  - exact IH.
Qed.

Lemma all_with_id_remove (id : string) (rows : list row) :
  remove_selected (all_with_id id rows) rows
  = filter (fun r => negb (has_id id r)) rows.
Proof.
  induction rows as [|r rows IH]; simpl; [reflexivity|].
  destruct (has_id id r); simpl; rewrite IH; reflexivity.
Qed.

Lemma first_with_id_remove (id : string) (rows : list row) :
  remove_selected (first_with_id id rows) rows = remove_first id rows.
Proof.
  induction rows as [|r rows IH]; simpl; [reflexivity|].
  destruct (has_id id r); simpl.
  - apply none_selected_remove.
  - f_equal. exact IH.
Qed.

Lemma no_row_all_none (id : string) (rows : list row) :
  no_row id rows -> all_with_id id rows = map (fun _ => false) rows.
Proof.
  intros H. apply map_ext_in. intros r Hin. apply has_id_false. exact (H r Hin).
Qed.

Lemma all_is_first (id : string) (rows : list row) :
  length (filter (has_id id) rows) <= 1 ->
  all_with_id id rows = first_with_id id rows.
Proof.
  induction rows as [|r rows IH]; simpl; [reflexivity|].
  destruct (has_id id r) eqn:E; simpl; intros H.
  - f_equal. apply no_row_all_none. apply filter_length_zero_no_row. lia.
  - f_equal. apply IH. exact H.
Qed.

Lemma first_with_id_replace (id : string) (html l1 l2 : list row) (r : row) :
  no_row id l1 -> row_id r = id ->
  replace_selected (first_with_id id (l1 ++ r :: l2)) html (l1 ++ r :: l2)
  = l1 ++ html ++ l2.
Proof.
  induction l1 as [|q l1 IH]; simpl; intros H Hr.
  - apply has_id_true in Hr. rewrite Hr. simpl. f_equal.
    apply none_selected_replace.
  - apply no_row_cons in H as [Hq Hrest].
    apply has_id_false in Hq. rewrite Hq. simpl. f_equal. auto.
Qed.

Lemma remove_selected_in (mask : list bool) (r : row) (rows : list row) :
  In r (remove_selected mask rows) -> In r rows.
Proof.
  revert mask. induction rows as [|q rows IH]; intros mask; simpl; [destruct mask; tauto|].
  destruct mask as [|[|] mask]; simpl; [tauto | |].
  - intros H. right. exact (IH _ H).
  - intros [H | H]; [left; exact H | right; exact (IH _ H)].
Qed.

Lemma unique_remove_selected (mask : list bool) (rows : list row) :
  NoDup (map row_id rows) -> NoDup (map row_id (remove_selected mask rows)).
Proof.
  revert mask. induction rows as [|r rows IH]; intros mask H; simpl.
  - destruct mask; constructor.
  - inversion H as [|? ? Hr Hrest]; subst.
    destruct mask as [|[|] mask]; simpl; [exact H | apply IH; exact Hrest |].
    constructor; [|apply IH; exact Hrest].
    intros Hin. apply Hr. apply in_map_iff in Hin as (q & Hq & Hin).
    apply in_map_iff. exists q. split; [exact Hq|].
    exact (remove_selected_in _ _ _ Hin).
Qed.

Lemma filter_split_length (id : string) (rows : list row) :
  length (filter (fun r => negb (has_id id r)) rows)
  + length (filter (has_id id) rows) = length rows.
Proof.
  induction rows as [|r rows IH]; simpl; [reflexivity|].
  destruct (has_id id r); simpl; lia.
Qed.

Lemma remove_first_length (id : string) (rows : list row) :
  length (remove_first id rows)
  = length rows - Nat.min 1 (length (filter (has_id id) rows)).
Proof.
  induction rows as [|r rows IH]; simpl; [reflexivity|].
  destruct (has_id id r) eqn:E; simpl; [lia|].
  rewrite IH. destruct (filter (has_id id) rows) eqn:F; simpl; [lia|].
  destruct rows; [discriminate F | simpl; lia].
Qed.

(** ** Response reconciliation *)

Lemma append_errors_fold (responseText : jsval) (keys : list string) (d : dom) :
  fold_left (fun d key => errors_append (error_item responseText key) d) keys d
  = mk_dom (qtips d) (op_users d) (errors d ++ map (error_item responseText) keys).
Proof.
  revert d. induction keys as [|k keys IH]; intros d; simpl.
  - rewrite app_nil_r. destruct d; reflexivity.
  - rewrite IH. simpl. rewrite <- app_assoc. reflexivity.
Qed.

Lemma qtip_hide_hidden (d : dom) :
  Forall (fun p => pop_visible p = false) (qtips (qtip_hide d)).
Proof. simpl. apply Forall_map. apply Forall_forall. reflexivity. Qed.

Lemma index_key_nonnil (n : nat) : Nat.to_uint n <> Decimal.Nil.
Proof.
  intros E. pose proof (DecimalNat.Unsigned.of_to n) as H.
  rewrite E in H. simpl in H. subst n. discriminate E.
Qed.

Lemma index_key_inj (n m : nat) : index_key n = index_key m -> n = m.
Proof.
  unfold index_key. intros H.
  apply (f_equal NilZero.uint_of_string) in H.
  rewrite !NilZero.usu in H by apply index_key_nonnil. injection H as H.
  apply DecimalNat.Unsigned.to_uint_inj. exact H.
Qed.

Lemma index_get_seq (n : nat) (items : list jsval) :
  map (fun k => index_get k n items) (map index_key (seq n (length items))) = items.
Proof.
  revert n. induction items as [|x items IH]; intros n; simpl; [reflexivity|].
  rewrite String.eqb_refl. f_equal.
  rewrite <- (IH (S n)) at 2. rewrite !map_map.
  apply map_ext_in. intros m Hm. apply in_seq in Hm.
  destruct (String.eqb (index_key n) (index_key m)) eqn:E; [|reflexivity].
  apply String.eqb_eq, index_key_inj in E. lia.
Qed.

Lemma assoc_get_distinct (props : list (string * jsval)) :
  NoDup (map fst props) ->
  map (fun k => assoc_get k props) (map fst props) = map snd props.
Proof.
  induction props as [|[k v] props IH]; simpl; intros H; [reflexivity|].
  inversion H as [|? ? Hk Hrest]; subst.
  rewrite String.eqb_refl. f_equal.
  rewrite <- (IH Hrest). rewrite !map_map.
  apply map_ext_in. intros [k' v'] Hin. simpl.
  destruct (String.eqb k k') eqn:E; [|reflexivity].
  apply String.eqb_eq in E. subst k'.
  exfalso. apply Hk. apply in_map_iff. exists (k, v'). split; [reflexivity|exact Hin].
Qed.

Lemma object_items (props : list (string * jsval)) :
  NoDup (map fst props) ->
  map (error_item (JObject props)) (map fst props)
  = map (fun kv => "<li>" +++ js_to_string (snd kv) +++ "</li>") props.
Proof.
  intros H. pose proof (assoc_get_distinct props H) as E.
  apply (f_equal (map (fun v => "<li>" +++ js_to_string v +++ "</li>"))) in E.
  rewrite !map_map in E. rewrite map_map. exact E.
Qed.

Section Reconciliation.

Variable select : engine.
Variable jq : jsval -> list row.

Lemma update_json_found (s : string) (mask : list bool) (d : dom) :
  select ("#op_users #" +++ s) (op_users d) = Found mask ->
  update_user_permissions select jq (JString s) (Some "application/json") d
  = (mk_dom (map hide (qtips d)) (remove_selected mask (op_users d)) (errors d),
     Returned).
Proof.
  intros H. unfold update_user_permissions, is_json, js_typeof.
  rewrite !String.eqb_refl. cbv zeta.
  change (op_users (qtip_hide d)) with (op_users d). cbn [js_to_string].
  rewrite H. reflexivity.
Qed.

Lemma update_json_other (body : jsval) (d : dom) :
  js_typeof body <> "string" ->
  update_user_permissions select jq body (Some "application/json") d
  = (mk_dom (qtips d) (op_users d)
       (errors d ++ map (error_item body) (for_in_keys body)),
     Returned).
Proof.
  intros H. unfold update_user_permissions. simpl is_json. cbv iota.
  rewrite (typeof_not_string body H). f_equal. apply append_errors_fold.
Qed.

Lemma update_html_found
    (body : jsval) (ct : option string) (mask : list bool) (d : dom) :
  is_json ct = false ->
  select ("#op_users #" +++ attr_id (jquery_of jq body)) (op_users d) = Found mask ->
  update_user_permissions select jq body ct d
  = (mk_dom (map hide (qtips d))
       (if Nat.eqb (select_count mask (op_users d)) 1
        then replace_selected mask (jquery_of jq body) (op_users d)
        else op_users d ++ jquery_of jq body)
       (errors d),
     Returned).
Proof.
  intros Hct H. unfold update_user_permissions. rewrite Hct. cbv zeta.
  change (op_users (qtip_hide d)) with (op_users d). rewrite H.
  destruct (Nat.eqb _ 1); reflexivity.
Qed.


(** On a container where at most one row has the name, both kinds of
    engine select the same. *)
Lemma select_at_most_one (n : string) (rows : list row) :
  by_id_in_container select ->
  plain_name n = true ->
  length (filter (has_id n) rows) <= 1 ->
  select ("#op_users #" +++ n) rows = Found (first_with_id n rows).
Proof.
  intros Hsel Hn Hle. destruct (Hsel n rows Hn) as [E | E]; [|exact E].
  rewrite E, (all_is_first n rows Hle). reflexivity.
Qed.

(** C1. A JSON response whose body is a string [s] that is a plain name:
    the callback returns, every popover is hidden, the error region is
    untouched, and from the container go the rows with identifier [s]:
    all of them, or the first of them where the engine stops at the
    first. Every row with another identifier stays, in its place; when a
    row has the identifier the container gets shorter; and on a
    container with distinct identifiers the rows that stay are exactly
    those with another identifier. *)
Theorem json_string_removes_row (s : string) (d : dom) :
  by_id_in_container select ->
  plain_name s = true ->
  let result :=
    update_user_permissions select jq (JString s) (Some "application/json") d in
  let d' := fst result in
  snd result = Returned
  /\ qtips d' = map hide (qtips d)
  /\ Forall (fun p => pop_visible p = false) (qtips d')
  /\ errors d' = errors d
  /\ (op_users d' = filter (fun r => negb (String.eqb (row_id r) s)) (op_users d)
      \/ op_users d' = remove_first s (op_users d))
  /\ filter (fun r => negb (String.eqb (row_id r) s)) (op_users d')
     = filter (fun r => negb (String.eqb (row_id r) s)) (op_users d)
  /\ (forall r, In r (op_users d') -> In r (op_users d))
  /\ (1 <= length (filter (has_id s) (op_users d)) ->
      length (op_users d') < length (op_users d))
  /\ (unique_ids d ->
      op_users d' = filter (fun r => negb (String.eqb (row_id r) s)) (op_users d)
      /\ no_row s (op_users d')).
Proof.
  intros Hsel Hs result d'. subst result d'.
  assert (Hrows : exists mask,
             select ("#op_users #" +++ s) (op_users d) = Found mask
             /\ (remove_selected mask (op_users d)
                 = filter (fun r => negb (has_id s r)) (op_users d)
                 \/ remove_selected mask (op_users d) = remove_first s (op_users d))).
  { destruct (Hsel s (op_users d) Hs) as [E | E]; eexists; (split; [exact E|]).
    - left. apply all_with_id_remove.
    - right. apply first_with_id_remove. }
  destruct Hrows as (mask & E & Hrows).
  rewrite (update_json_found s mask d E). cbn [fst snd qtips op_users errors].
  split; [reflexivity|]. split; [reflexivity|].
  split; [apply (qtip_hide_hidden d)|]. split; [reflexivity|].
  split; [exact Hrows|]. split; [|split; [|split]].
  - destruct Hrows as [-> | ->]; [apply filter_rest_twice | apply remove_first_rest].
  - intros r. apply remove_selected_in.
  - intros Hone. destruct Hrows as [-> | ->].
    + pose proof (filter_split_length s (op_users d)). lia.
    + rewrite remove_first_length.
      pose proof (filter_split_length s (op_users d)). lia.
  - intros Hu.
    pose proof (unique_at_most_one s (op_users d) Hu) as Hle.
    rewrite (select_at_most_one s (op_users d) Hsel Hs Hle) in E.
    injection E as <-.
    rewrite <- (all_is_first s (op_users d) Hle), all_with_id_remove.
    split; [reflexivity | apply filter_rest_none].
Qed.

(** C3. A JSON response whose body is an object: the callback returns
    and the error region gains one list item per property, in
    enumeration order, each holding the message of that property; the
    popovers stay as they are (none is hidden) and the rows are
    untouched. The keys of an object are distinct. *)
Theorem json_object_lists_errors (props : list (string * jsval)) (d : dom) :
  NoDup (map fst props) ->
  let result :=
    update_user_permissions select jq (JObject props) (Some "application/json") d in
  let d' := fst result in
  snd result = Returned
  /\ errors d'
     = errors d ++ map (fun kv => "<li>" +++ js_to_string (snd kv) +++ "</li>") props
  /\ length (errors d') = length (errors d) + length props
  /\ qtips d' = qtips d
  /\ op_users d' = op_users d.
Proof.
  intros H result d'. subst result d'.
  rewrite update_json_other by (simpl; discriminate).
  cbn [fst snd qtips op_users errors for_in_keys].
  rewrite (object_items props H).
  split; [reflexivity|]. split; [reflexivity|].
  split; [|split; reflexivity].
  rewrite length_app, length_map. reflexivity.
Qed.

(** X1. A JSON response that is not a string changes the page exactly
    when its body has a key to enumerate: for [null], a number, a
    boolean, [{}] and [[]] nothing at all happens, the popover stays open
    and no message appears. *)
Theorem json_without_keys_changes_nothing (body : jsval) (d : dom) :
  js_typeof body <> "string" ->
  (update_user_permissions select jq body (Some "application/json") d = (d, Returned)
   <-> for_in_keys body = []).
Proof.
  intros H. rewrite (update_json_other body d H). split.
  - intros E. apply (f_equal fst) in E. apply (f_equal errors) in E. simpl in E.
    apply (f_equal (@length string)) in E. rewrite length_app, length_map in E.
    apply length_zero_iff_nil. lia.
  - intros ->. simpl. rewrite app_nil_r. destruct d; reflexivity.
Qed.

(** X2. A JSON response whose body is an array appends one list item
    per element, in the order of the array, holding that element as a
    string; popovers and rows are untouched. *)
Theorem json_array_lists_items (items : list jsval) (d : dom) :
  update_user_permissions select jq (JArray items) (Some "application/json") d
  = (mk_dom (qtips d) (op_users d)
       (errors d ++ map (fun x => "<li>" +++ js_to_string x +++ "</li>") items),
     Returned).
Proof.
  rewrite update_json_other by (simpl; discriminate).
  f_equal. f_equal. f_equal. unfold error_item. simpl.
  rewrite <- (index_get_seq 0 items) at 2. rewrite !map_map. reflexivity.
Qed.

(** X3. When the keys of a JSON object are distinct, the list items
    appended are the messages of its properties, one per property and in
    their order. *)
Theorem json_object_lists_messages (props : list (string * jsval)) (d : dom) :
  NoDup (map fst props) ->
  errors (fst (update_user_permissions select jq (JObject props)
                 (Some "application/json") d))
  = errors d ++ map (fun kv => "<li>" +++ js_to_string (snd kv) +++ "</li>") props.
Proof.
  intros H. rewrite update_json_other by (simpl; discriminate).
  cbn [fst errors for_in_keys]. rewrite (object_items props H). reflexivity.
Qed.

(** X4. A submit followed by a response of validation errors: the one
    request the submit handler sends, answered by a JSON object, leaves
    in the error region the messages of that response and nothing older;
    popovers and rows are those of before the submit. *)
Theorem submit_then_errors_shows_only_new (form : nat) (d : dom)
    (props : list (string * jsval)) :
  let body := JObject props in
  let sent := submit_handler form d in
  length (snd sent) = 1
  /\ Forall
       (fun q =>
          let d' :=
            deliver select jq q (Succeeded body (Some "application/json")) (fst sent) in
          errors d' = map (fun key => "<li>" +++ js_to_string (js_get body key) +++ "</li>")
                          (map fst props)
          /\ qtips d' = qtips d
          /\ op_users d' = op_users d)
       (snd sent).
Proof.
  cbv zeta. split; [reflexivity|].
  constructor; [|constructor].
  unfold deliver. cbn [submit_handler fst snd success_callback opt_success run_callback].
  rewrite update_json_other by (simpl; discriminate).
  simpl. repeat split.
Qed.

(** X5. After a JSON response whose body is the plain name [s], a
    container with distinct identifiers holds no row with identifier
    [s], and it has lost as many rows as it held with that identifier. *)
Theorem json_string_leaves_no_match (s : string) (d : dom) :
  by_id_in_container select ->
  plain_name s = true ->
  unique_ids d ->
  let d' :=
    fst (update_user_permissions select jq (JString s) (Some "application/json") d) in
  no_row s (op_users d')
  /\ length (op_users d') + length (filter (has_id s) (op_users d))
     = length (op_users d).
Proof.
  intros Hsel Hs Hu d'. subst d'.
  pose proof (unique_at_most_one s (op_users d) Hu) as Hle.
  rewrite (update_json_found s _ d (select_at_most_one s (op_users d) Hsel Hs Hle)).
  cbn [fst op_users].
  rewrite <- (all_is_first s (op_users d) Hle), all_with_id_remove.
  split; [apply filter_rest_none | apply filter_split_length].
Qed.

(** X6. On a container with distinct identifiers, the same response of
    a plain name handled twice gives the page of handling it once. *)
Theorem json_string_idempotent (s : string) (d : dom) :
  by_id_in_container select ->
  plain_name s = true ->
  unique_ids d ->
  let update :=
    update_user_permissions select jq (JString s) (Some "application/json") in
  update (fst (update d)) = update d.
Proof.
  intros Hsel Hs Hu update. subst update.
  pose proof (unique_at_most_one s (op_users d) Hu) as Hle.
  rewrite (update_json_found s _ d (select_at_most_one s (op_users d) Hsel Hs Hle)).
  cbn [fst].
  rewrite <- (all_is_first s (op_users d) Hle), all_with_id_remove.
  set (rows' := filter (fun r => negb (has_id s r)) (op_users d)).
  assert (Hno : no_row s rows') by apply filter_rest_none.
  assert (Hle' : length (filter (has_id s) rows') <= 1).
  { rewrite (filter_no_row s rows' Hno). simpl. lia. }
  rewrite (update_json_found s _ (mk_dom (map hide (qtips d)) rows' (errors d))
             (select_at_most_one s rows' Hsel Hs Hle')).
  cbn [qtips op_users errors].
  rewrite first_with_id_remove, (remove_first_no_row s rows' Hno), map_map.
  reflexivity.
Qed.

End Reconciliation.

(** ** Reconciliation of a rendered row *)

Section Fragment.

Variable select : engine.
Variable jq : jsval -> list row.

(** What a plain identifier and a container with distinct identifiers
    leave of the branch of lines 114-126. *)
Lemma update_html_unique_cases (body : jsval) (ct : option string) (d : dom) :
  by_id_in_container select ->
  is_json ct = false ->
  plain_name (attr_id (jquery_of jq body)) = true ->
  length (filter (has_id (attr_id (jquery_of jq body))) (op_users d)) <= 1 ->
  let html := jquery_of jq body in
  let id := attr_id html in
  let result := update_user_permissions select jq body ct d in
  snd result = Returned
  /\ qtips (fst result) = map hide (qtips d)
  /\ errors (fst result) = errors d
  /\ ((exists l1 r l2,
          op_users d = l1 ++ r :: l2 /\ row_id r = id
          /\ no_row id l1 /\ no_row id l2
          /\ op_users (fst result) = l1 ++ html ++ l2)
      \/ (no_row id (op_users d)
          /\ op_users (fst result) = op_users d ++ html)).
Proof.
  intros Hsel Hct Hid Hle html id result. subst html id result.
  set (html := jquery_of jq body) in *. set (id := attr_id html) in *.
  pose proof (select_at_most_one select id (op_users d) Hsel Hid Hle) as E.
  rewrite (update_html_found select jq body ct _ d Hct E).
  cbn [fst snd qtips op_users errors].
  split; [reflexivity|]. split; [reflexivity|]. split; [reflexivity|].
  rewrite first_with_id_count.
  destruct (Nat.eq_dec (length (filter (has_id id) (op_users d))) 1) as [E1 | E1].
  - left. destruct (filter_one_split _ _ E1) as (l1 & r & l2 & Hs & Hr & H1 & H2).
    exists l1, r, l2. repeat (split; [assumption|]).
    rewrite E1. simpl. rewrite Hs. apply first_with_id_replace; assumption.
  - right. assert (E0 : length (filter (has_id id) (op_users d)) = 0) by lia.
    split; [apply filter_length_zero_no_row; exact E0|].
    rewrite E0. reflexivity.
Qed.



Lemma update_html_selects_fragment
    (body : jsval) (ct : option string) (f : row) (d : dom) :
  by_id_in_container select ->
  is_json ct = false ->
  unique_ids d ->
  jquery_of jq body = [f] ->
  plain_name (row_id f) = true ->
  filter (has_id (row_id f))
    (op_users (fst (update_user_permissions select jq body ct d))) = [f].
Proof.
  intros Hsel Hct Hu Hf Hid.
  assert (Hff : has_id (row_id f) f = true) by (apply has_id_true; reflexivity).
  pose proof (unique_at_most_one (row_id f) (op_users d) Hu) as Hle.
  pose proof (update_html_unique_cases body ct d Hsel Hct) as H.
  rewrite Hf in H. simpl attr_id in H.
  destruct (H Hid Hle)
    as (_ & _ & _ & [(l1 & r & l2 & Hs & Hr & H1 & H2 & ->) | (Hno & ->)]).
  - rewrite filter_app. simpl. rewrite Hff.
    rewrite (filter_no_row _ _ H1), (filter_no_row _ _ H2). reflexivity.
  - rewrite filter_app. simpl. rewrite Hff, (filter_no_row _ _ Hno). reflexivity.
Qed.

(** X7. Every response the page handles keeps the identifiers of the
    container pairwise distinct, provided the markup of a rendered row
    builds at most one element and a plain name is what stands for its
    identifier: a removal cannot duplicate, a replacement puts the
    fragment where the row with its identifier was, and a fragment is
    appended only when no row has its identifier. *)
Theorem responses_keep_ids_unique
    (c : callback) (body : jsval) (ct : option string) (d : dom) :
  by_id_in_container select ->
  unique_ids d ->
  length (jquery_of jq body) <= 1 ->
  plain_name (attr_id (jquery_of jq body)) = true ->
  unique_ids (fst (run_callback select jq c body ct d)).
Proof.
  intros Hsel Hu Hlen Hid. unfold unique_ids in *.
  destruct c as [id | id |]; simpl.
  - unfold delete_user_success. destruct (String.eqb _ _); [|exact Hu].
    destruct (select _ _); [|exact Hu]. apply unique_remove_selected; exact Hu.
  - unfold delete_group_success. destruct (String.eqb _ _); [|exact Hu].
    destruct (select _ _); [|exact Hu]. apply unique_remove_selected; exact Hu.
  - destruct (is_json ct) eqn:Hct.
    + unfold update_user_permissions. rewrite Hct.
      destruct (String.eqb _ _).
      * cbv zeta. destruct (select _ _); [|exact Hu].
        apply unique_remove_selected; exact Hu.
      * cbn [fst]. rewrite (append_errors_fold body). exact Hu.
    + pose proof (unique_at_most_one (attr_id (jquery_of jq body)) (op_users d) Hu)
        as Hle.
      destruct (update_html_unique_cases body ct d Hsel Hct Hid Hle)
        as (_ & _ & _ & [(l1 & r & l2 & Hs & Hr & _ & _ & ->) | (Hno & ->)]).
      * rewrite Hs in Hu. rewrite map_app in Hu. simpl in Hu.
        destruct (jquery_of jq body) as [|f [|g rest]]; simpl in *; [| |lia].
        -- rewrite map_app. apply NoDup_remove_1 in Hu. exact Hu.
        -- rewrite map_app. simpl. rewrite <- Hr. exact Hu.
      * destruct (jquery_of jq body) as [|f [|g rest]]; simpl in *; [| |lia].
        -- rewrite app_nil_r. exact Hu.
        -- rewrite map_app. simpl. apply no_row_not_in in Hno.
           apply NoDup_app; [exact Hu | repeat constructor; intros [] |].
           intros a Ha [<- | []]. exact (Hno Ha).
Qed.

(** X8. Insert then look up. On a container with distinct identifiers,
    after a response that is not JSON and whose markup builds the single
    element [f], with a plain name for identifier, the rows with [f]'s
    identifier are [f] alone, the rows with any other identifier are
    those of before, and the container has grown by one row exactly when
    it held no row with that identifier. *)
Theorem upsert_then_select (body : jsval) (ct : option string) (f : row) (d : dom) :
  by_id_in_container select ->
  is_json ct = false ->
  unique_ids d ->
  jquery_of jq body = [f] ->
  plain_name (row_id f) = true ->
  let d' := fst (update_user_permissions select jq body ct d) in
  filter (has_id (row_id f)) (op_users d') = [f]
  /\ (forall id, id <> row_id f ->
        filter (has_id id) (op_users d') = filter (has_id id) (op_users d))
  /\ length (op_users d') + length (filter (has_id (row_id f)) (op_users d))
     = S (length (op_users d)).
Proof.
  intros Hsel Hct Hu Hf Hid d'. subst d'.
  split; [apply update_html_selects_fragment; assumption|].
  pose proof (unique_at_most_one (row_id f) (op_users d) Hu) as Hle.
  pose proof (update_html_unique_cases body ct d Hsel Hct) as H.
  rewrite Hf in H. simpl attr_id in H.
  destruct (H Hid Hle)
    as (_ & _ & _ & [(l1 & r & l2 & Hs & Hr & H1 & H2 & ->) | (Hno & ->)]).
  - rewrite Hs. split.
    + intros id Hne. rewrite !filter_app. simpl.
      assert (E : has_id id f = false) by (apply has_id_false; congruence).
      assert (E' : has_id id r = false) by (apply has_id_false; congruence).
      rewrite E, E'. reflexivity.
    + rewrite !filter_app. simpl. apply has_id_true in Hr. rewrite Hr.
      rewrite (filter_no_row _ _ H1), (filter_no_row _ _ H2).
      rewrite !length_app. simpl. lia.
  - split.
    + intros id Hne. rewrite filter_app. simpl.
      assert (E : has_id id f = false) by (apply has_id_false; congruence).
      rewrite E. apply app_nil_r.
    + rewrite (filter_no_row _ _ Hno), length_app. simpl. lia.
Qed.

(** X9. On a container with distinct identifiers, handling twice the
    same rendered row, whose identifier is a plain name, gives the page
    of handling it once. *)
Theorem upsert_idempotent (body : jsval) (ct : option string) (f : row) (d : dom) :
  by_id_in_container select ->
  is_json ct = false ->
  unique_ids d ->
  jquery_of jq body = [f] ->
  plain_name (row_id f) = true ->
  let update := update_user_permissions select jq body ct in
  update (fst (update d)) = update d.
Proof.
  intros Hsel Hct Hu Hf Hid update. subst update.
  pose proof (update_html_selects_fragment body ct f d Hsel Hct Hu Hf Hid) as Hsel1.
  pose proof (unique_at_most_one (row_id f) (op_users d) Hu) as Hle.
  pose proof (update_html_unique_cases body ct d Hsel Hct) as H.
  rewrite Hf in H. simpl attr_id in H.
  destruct (H Hid Hle) as (Hc & Hq & He & _). clear H.
  destruct (update_user_permissions select jq body ct d) as [d1 c1] eqn:E1.
  cbn [fst snd] in *. subst c1.
  assert (Hle1 : length (filter (has_id (row_id f)) (op_users d1)) <= 1)
    by (rewrite Hsel1; simpl; lia).
  pose proof (update_html_unique_cases body ct d1 Hsel Hct) as H.
  rewrite Hf in H. simpl attr_id in H.
  destruct (H Hid Hle1)
    as (Hc2 & Hq2 & He2 & [(l1 & r & l2 & Hs & Hr & H1 & H2 & Hrows) | (Hno & _)]).
  - destruct (update_user_permissions select jq body ct d1) as [d2 c2].
    cbn [fst snd] in *. subst c2. f_equal.
    assert (r = f).
    { rewrite Hs, filter_app in Hsel1. simpl in Hsel1.
      apply has_id_true in Hr. rewrite Hr in Hsel1.
      rewrite (filter_no_row _ _ H1), (filter_no_row _ _ H2) in Hsel1.
      injection Hsel1 as ->. reflexivity. }
    subst r. simpl in Hrows. rewrite <- Hs in Hrows.
    destruct d1 as [q1 u1 e1], d2 as [q2 u2 e2]. simpl in *. subst.
    f_equal. rewrite map_map. apply map_ext. intros p. reflexivity.
  - exfalso. rewrite (filter_no_row _ _ Hno) in Hsel1. discriminate Hsel1.
Qed.

(** X10. Where the engine finds every row with the identifier, once an
    identifier is in the container twice, responses with that identifier
    no longer replace anything: each one appends its fragment again, so
    after [n] of them the container is the one of before followed by [n]
    copies of the fragment. *)
Theorem duplicates_keep_growing
    (body : jsval) (ct : option string) (f : row) (d : dom) (n : nat) :
  (forall rows,
     select ("#op_users #" +++ row_id f) rows = Found (all_with_id (row_id f) rows)) ->
  is_json ct = false ->
  jquery_of jq body = [f] ->
  2 <= length (filter (has_id (row_id f)) (op_users d)) ->
  op_users (Nat.iter n (fun d => fst (update_user_permissions select jq body ct d)) d)
  = op_users d ++ repeat f n.
Proof.
  intros Hall Hct Hf Hdup.
  set (upd := fun d => fst (update_user_permissions select jq body ct d)).
  assert (Hstep : forall d0,
            2 <= length (filter (has_id (row_id f)) (op_users d0)) ->
            op_users (upd d0) = op_users d0 ++ [f]).
  { intros d0 H0. unfold upd.
    assert (E : select ("#op_users #" +++ attr_id (jquery_of jq body)) (op_users d0)
                = Found (all_with_id (row_id f) (op_users d0))).
    { rewrite Hf. simpl attr_id. apply Hall. }
    rewrite (update_html_found select jq body ct _ d0 Hct E).
    cbn [fst op_users]. rewrite all_with_id_count, Hf.
    destruct (Nat.eqb _ 1) eqn:E1; [apply Nat.eqb_eq in E1; lia | reflexivity]. }
  assert (H : op_users (Nat.iter n upd d) = op_users d ++ repeat f n
              /\ 2 <= length (filter (has_id (row_id f)) (op_users (Nat.iter n upd d)))).
  { induction n as [|n [IHrows IHdup]].
    - simpl. rewrite app_nil_r. split; [reflexivity | exact Hdup].
    - rewrite Nat.iter_succ. rewrite (Hstep _ IHdup). split.
      + rewrite IHrows, <- app_assoc. f_equal. symmetry. apply repeat_cons.
      + rewrite filter_app, length_app. lia. }
  exact (proj1 H).
Qed.

End Fragment.

(** *** Instances *)

(** The example of the specification: [{"name": "required"}]. *)
Example json_object_required (select : engine) (jq : jsval -> list row) (d : dom) :
  errors (fst (update_user_permissions select jq (JObject [("name", JString "required")])
                 (Some "application/json") d))
  = errors d ++ ["<li>required</li>"].
Proof. reflexivity. Qed.

(** Django's form errors: a list of messages per field. *)
Example json_object_message_list (select : engine) (jq : jsval -> list row) (d : dom) :
  errors (fst (update_user_permissions select jq
                 (JObject [("user", JArray [JString "required"; JString "unknown"])])
                 (Some "application/json") d))
  = errors d ++ ["<li>required,unknown</li>"].
Proof. reflexivity. Qed.

Lemma unique_page_7_8 : unique_ids (page [row7; row8]).
Proof. unfold unique_ids. simpl. repeat constructor; simpl; intuition discriminate. Defined.

Lemma unique_page_8 : unique_ids (page [row8]).
Proof. unfold unique_ids. simpl. repeat constructor; simpl; intuition discriminate. Defined.

Lemma json_string_removes_row_witness :
  plain_name "user_7" = true
  /\ op_users (fst (update_user_permissions (sizzle true) jq7 (JString "user_7")
                      (Some "application/json") (page [row7; row8])))
     = [row8].
Proof.
  split; [reflexivity|].
  exact (proj1 (proj2 (proj2 (proj2 (proj2 (proj2 (proj2 (proj2 (proj2
    (json_string_removes_row (sizzle true) jq7 "user_7" (page [row7; row8])
       (sizzle_in_container true) eq_refl)))))))) unique_page_7_8)).
Defined.

(** C1 as stated fails on a body that jQuery reads as a list of
    selectors: the rows [user_7] and [user_8] both go, and the
    identifier of [user_8] is not the body. *)
Lemma json_selector_list_removes_other_row :
  let body := "user_7, #user_8" in
  let before := page [row7; row8; group13] in
  let after qsa :=
    fst (update_user_permissions (sizzle qsa) jq7 (JString body)
           (Some "application/json") before) in
  In row8 (op_users before)
  /\ row_id row8 <> body
  /\ op_users (after true) = [group13]
  /\ op_users (after false) = [group13]
  /\ ~ In row8 (op_users (after true))
  /\ ~ In row8 (op_users (after false)).
Proof.
  cbv zeta. split; [right; left; reflexivity|]. split; [discriminate|].
  split; [reflexivity|]. split; [reflexivity|].
  split; intros [H | []]; discriminate H.
Qed.

Lemma json_object_lists_errors_witness :
  NoDup (map fst [("user", JString "required"); ("perms", JArray [JString "pick one"])])
  /\ errors (fst (update_user_permissions (sizzle true) jq7
                    (JObject [("user", JString "required");
                              ("perms", JArray [JString "pick one"])])
                    (Some "application/json") (page [row7])))
     = [] ++ ["<li>required</li>"; "<li>pick one</li>"].
Proof.
  assert (H : NoDup (map fst [("user", JString "required");
                               ("perms", JArray [JString "pick one"])])).
  { repeat constructor; simpl; intuition discriminate. }
  split; [exact H|].
  exact (proj1 (proj2 (json_object_lists_errors (sizzle true) jq7 _ (page [row7]) H))).
Defined.

Lemma json_without_keys_changes_nothing_witness :
  js_typeof JNull <> "string"
  /\ update_user_permissions (sizzle true) jq7 JNull (Some "application/json")
       (page [row7])
     = (page [row7], Returned).
Proof.
  split; [discriminate|].
  apply (proj2 (json_without_keys_changes_nothing (sizzle true) jq7 JNull (page [row7])
                  ltac:(discriminate))).
  reflexivity.
Defined.

Lemma json_object_lists_messages_witness :
  NoDup (map fst [("user", JString "required"); ("perms", JArray [JString "pick one"])])
  /\ errors (fst (update_user_permissions (sizzle false) jq7
                    (JObject [("user", JString "required");
                              ("perms", JArray [JString "pick one"])])
                    (Some "application/json") (page [row7])))
     = ["<li>required</li>"; "<li>pick one</li>"].
Proof.
  assert (H : NoDup (map fst [("user", JString "required");
                               ("perms", JArray [JString "pick one"])])).
  { repeat constructor; simpl; intuition discriminate. }
  split; [exact H|].
  apply (json_object_lists_messages (sizzle false) jq7 _ (page [row7]) H).
Defined.

Lemma json_string_leaves_no_match_witness :
  plain_name "user_8" = true
  /\ unique_ids (page [row7; row8])
  /\ no_row "user_8"
       (op_users (fst (update_user_permissions (sizzle false) jq7 (JString "user_8")
                         (Some "application/json") (page [row7; row8])))).
Proof.
  split; [reflexivity|]. split; [exact unique_page_7_8|].
  exact (proj1 (json_string_leaves_no_match (sizzle false) jq7 "user_8"
                  (page [row7; row8]) (sizzle_in_container false) eq_refl
                  unique_page_7_8)).
Defined.

Lemma json_string_idempotent_witness :
  plain_name "user_7" = true
  /\ unique_ids (page [row7; row8])
  /\ update_user_permissions (sizzle true) jq7 (JString "user_7")
       (Some "application/json")
       (fst (update_user_permissions (sizzle true) jq7 (JString "user_7")
               (Some "application/json") (page [row7; row8])))
     = update_user_permissions (sizzle true) jq7 (JString "user_7")
         (Some "application/json") (page [row7; row8]).
Proof.
  split; [reflexivity|]. split; [exact unique_page_7_8|].
  exact (json_string_idempotent (sizzle true) jq7 "user_7" (page [row7; row8])
           (sizzle_in_container true) eq_refl unique_page_7_8).
Defined.





Lemma responses_keep_ids_unique_witness :
  unique_ids (page [row7; row8])
  /\ length (jquery_of jq7 (JString markup7)) <= 1
  /\ plain_name (attr_id (jquery_of jq7 (JString markup7))) = true
  /\ unique_ids (fst (run_callback (sizzle true) jq7 UpdateUserPermissions
                        (JString markup7) (Some "text/html") (page [row7; row8]))).
Proof.
  assert (H2 : length (jquery_of jq7 (JString markup7)) <= 1) by (simpl; lia).
  split; [exact unique_page_7_8|]. split; [exact H2|]. split; [reflexivity|].
  exact (responses_keep_ids_unique (sizzle true) jq7 UpdateUserPermissions
           (JString markup7) (Some "text/html") (page [row7; row8])
           (sizzle_in_container true) unique_page_7_8 H2 eq_refl).
Defined.

Lemma upsert_then_select_witness :
  unique_ids (page [row8])
  /\ plain_name (row_id row7') = true
  /\ filter (has_id "user_7")
       (op_users (fst (update_user_permissions (sizzle false) jq7 (JString markup7)
                         (Some "text/html") (page [row8]))))
     = [row7'].
Proof.
  split; [exact unique_page_8|]. split; [reflexivity|].
  exact (proj1 (upsert_then_select (sizzle false) jq7 (JString markup7)
                  (Some "text/html") row7' (page [row8])
                  (sizzle_in_container false) eq_refl unique_page_8 eq_refl eq_refl)).
Defined.

Lemma upsert_idempotent_witness :
  unique_ids (page [row7; row8])
  /\ update_user_permissions (sizzle true) jq7 (JString markup7) None
       (fst (update_user_permissions (sizzle true) jq7 (JString markup7) None
               (page [row7; row8])))
     = update_user_permissions (sizzle true) jq7 (JString markup7) None
         (page [row7; row8]).
Proof.
  split; [exact unique_page_7_8|].
  exact (upsert_idempotent (sizzle true) jq7 (JString markup7) None row7'
           (page [row7; row8]) (sizzle_in_container true) eq_refl unique_page_7_8
           eq_refl eq_refl).
Defined.

Lemma duplicates_keep_growing_witness :
  (forall rows,
     sizzle true ("#op_users #" +++ row_id row7') rows
     = Found (all_with_id (row_id row7') rows))
  /\ 2 <= length (filter (has_id (row_id row7')) (op_users (page [row7; row8; row7])))
  /\ op_users (Nat.iter 2
                 (fun d => fst (update_user_permissions (sizzle true) jq7
                                  (JString markup7) None d))
                 (page [row7; row8; row7]))
     = [row7; row8; row7] ++ [row7'; row7'].
Proof.
  assert (H1 : forall rows,
             sizzle true ("#op_users #" +++ row_id row7') rows
             = Found (all_with_id (row_id row7') rows)) by (intros rows; reflexivity).
  assert (H2 : 2 <= length (filter (has_id (row_id row7'))
                              (op_users (page [row7; row8; row7]))))
    by (simpl; lia).
  split; [exact H1|]. split; [exact H2|].
  exact (duplicates_keep_growing (sizzle true) jq7 (JString markup7) None row7'
           (page [row7; row8; row7]) 2 H1 eq_refl eq_refl H2).
Defined.

(** ** What initialization binds *)

Lemma die_every_selector (l : list (selector * string * handler)) :
  live_bound (die Permissions (die GroupDelete (die UserDelete
    (die SubmitButtons (mk_bindings [] l))))) = [].
Proof.
  induction l as [|[[sel type] h] l IH]; [reflexivity|].
  simpl in *. destruct sel; simpl; exact IH.
Qed.

(** Whatever was bound before, [ready] leaves each handler bound once. *)
Lemma ready_bound_once (b : bindings) : ready b = bound_once.
Proof.
  unfold ready, unbind_add_user.
  pose proof (die_every_selector (live_bound b)) as H.
  destruct (die Permissions _) as [au lv] eqn:E.
  assert (Hau : au = []).
  { change au with (add_user_bound (mk_bindings au lv)). rewrite <- E. reflexivity. }
  simpl in H. subst au lv. reflexivity.
Qed.

Lemma iter_ready_bound_once (n : nat) (b : bindings) :
  Nat.iter (S n) ready b = bound_once.
Proof. simpl. apply ready_bound_once. Qed.

(** ** Deleting a user or a group *)

Section Delete.

Variable user_url : string.
Variable obj_id : jsval.
Variable confirm : string -> bool.
Variable select : engine.
Variable jq : jsval -> list row.

Lemma delete_user_success_string (x s : string) (d : dom) :
  by_id_in_document select ->
  name_chars x = true ->
  delete_user_success select x (JString s) d
  = (mk_dom (qtips d) (remove_first ("user_" +++ x) (op_users d)) (errors d),
     Returned).
Proof.
  intros Hsel Hx. unfold delete_user_success, js_typeof.
  rewrite String.eqb_refl. cbv zeta.
  rewrite (proj1 (Hsel x (op_users d) Hx)). unfold set_op_users.
  rewrite first_with_id_remove. reflexivity.
Qed.

Lemma delete_group_success_string (x s : string) (d : dom) :
  by_id_in_document select ->
  name_chars x = true ->
  delete_group_success select x (JString s) d
  = (mk_dom (qtips d) (remove_first ("group_" +++ x) (op_users d)) (errors d),
     Returned).
Proof.
  intros Hsel Hx. unfold delete_group_success, js_typeof.
  rewrite String.eqb_refl. cbv zeta.
  rewrite (proj2 (Hsel x (op_users d) Hx)). unfold set_op_users.
  rewrite first_with_id_remove. reflexivity.
Qed.

Lemma delete_user_success_other (id : string) (code : jsval) (d : dom) :
  js_typeof code <> "string" -> delete_user_success select id code d = (d, Returned).
Proof.
  intros H. unfold delete_user_success. rewrite (typeof_not_string code H).
  reflexivity.
Qed.

Lemma delete_group_success_other (id : string) (code : jsval) (d : dom) :
  js_typeof code <> "string" -> delete_group_success select id code d = (d, Returned).
Proof.
  intros H. unfold delete_group_success. rewrite (typeof_not_string code H).
  reflexivity.
Qed.

Lemma removed_first_intro (id : string) (d : dom) :
  removed_first id d
    (mk_dom (qtips d) (remove_first id (op_users d)) (errors d), Returned).
Proof.
  unfold removed_first. cbn [fst snd qtips op_users errors].
  split; [reflexivity|]. split; [reflexivity|]. split; [reflexivity|]. split.
  - intros l1 r l2 Hs Hr H1. rewrite Hs. apply remove_first_split; assumption.
  - apply remove_first_no_row.
Qed.

(** C4. A confirmed click on the delete control of a row [user_<x>],
    [x] being made of name characters, destroys every popover and sends
    one request: a post to [user_url] with [user] = [x], the identifier
    without its first five characters, and [obj] = [obj_id], its response
    read as JSON. When that request later succeeds with a string, the
    first row of the page whose identifier is the clicked row's is
    removed and nothing else changes; when it succeeds with anything
    else, the page is left as it is. *)
Theorem delete_user_confirmed (r : row) (x : string) (d : dom) :
  by_id_in_document select ->
  row_id r = "user_" +++ x ->
  name_chars x = true ->
  confirm ("Remove this user: " +++ js_to_string (name_html r)) = true ->
  let q := Post user_url [("user", JString x); ("obj", obj_id)]
             (DeleteUserSuccess x) "json" in
  x = js_substring 5 (row_id r)
  /\ delete_user_click user_url obj_id confirm r d
     = (mk_dom [] (op_users d) (errors d), [q])
  /\ (forall (s : string) (ct : option string) (d1 : dom),
        let d1' := deliver select jq q (Succeeded (JString s) ct) d1 in
        qtips d1' = qtips d1
        /\ errors d1' = errors d1
        /\ op_users d1' = remove_first (row_id r) (op_users d1)
        /\ (forall l1 r1 l2,
              op_users d1 = l1 ++ r1 :: l2 -> row_id r1 = row_id r ->
              no_row (row_id r) l1 ->
              op_users d1' = l1 ++ l2)
        /\ (no_row (row_id r) (op_users d1) -> op_users d1' = op_users d1))
  /\ (forall (code : jsval) (ct : option string) (d1 : dom),
        js_typeof code <> "string" ->
        deliver select jq q (Succeeded code ct) d1 = d1).
Proof.
  intros Hsel Hid Hname Hyes q.
  assert (Hx : x = js_substring 5 (row_id r)).
  { rewrite Hid. symmetry. apply (js_substring_app "user_" x). }
  split; [exact Hx|]. split; [|split].
  - unfold delete_user_click. rewrite Hyes, <- Hx. reflexivity.
  - intros s ct d1 d1'. subst d1' q.
    unfold deliver. cbn [success_callback run_callback].
    rewrite (delete_user_success_string x s d1 Hsel Hname), <- Hid.
    cbn [fst qtips op_users errors].
    split; [reflexivity|]. split; [reflexivity|]. split; [reflexivity|]. split.
    + intros l1 r1 l2 Hs Hr1 Hl1. rewrite Hs.
      apply remove_first_split; assumption.
    + apply remove_first_no_row.
  - intros code ct d1 Hcode. subst q.
    unfold deliver. cbn [success_callback run_callback].
    rewrite (delete_user_success_other x code d1 Hcode). reflexivity.
Qed.

(** The delete-group handler never touches the page when it is clicked:
    it only sends, or not, its request. *)
Lemma delete_group_click_dom (r : row) (d : dom) :
  fst (delete_group_click user_url obj_id confirm r d) = d.
Proof. unfold delete_group_click. destruct (confirm _); reflexivity. Qed.

Lemma delete_group_confirmed (r : row) (x : string) (d : dom) :
  row_id r = "group_" +++ x ->
  confirm ("Remove this group: " +++ js_to_string (name_html r)) = true ->
  delete_group_click user_url obj_id confirm r d
  = (d, [Post user_url [("group", JString x); ("obj", obj_id)]
           (DeleteGroupSuccess x) "json"]).
Proof.
  intros Hid Hyes. unfold delete_group_click. rewrite Hyes, Hid. reflexivity.
Qed.

(** C10. When the prompt of a delete control is declined, the handler
    sends nothing and returns the page it was given: popovers, rows and
    error region are the same. So does, after initialization, a click on
    a delete control whose every prompt is declined. *)
Theorem delete_declined (r : row) (d : dom) :
  (confirm ("Remove this user: " +++ js_to_string (name_html r)) = false ->
   delete_user_click user_url obj_id confirm r d = (d, []))
  /\ (confirm ("Remove this group: " +++ js_to_string (name_html r)) = false ->
      delete_group_click user_url obj_id confirm r d = (d, []))
  /\ ((forall prompt, confirm prompt = false) ->
      forall b outer,
        click user_url obj_id confirm (ready b) (DeleteControl r outer) d = (d, [])).
Proof.
  split; [|split]; intros Hno.
  - unfold delete_user_click. rewrite Hno. reflexivity.
  - unfold delete_group_click. rewrite Hno. reflexivity.
  - intros b outer. rewrite ready_bound_once. unfold click, fired. simpl.
    destruct (inside "user" r outer), (inside "group" r outer); simpl;
      unfold delete_user_click, delete_group_click; rewrite ?Hno; reflexivity.
Qed.

(** X11. The success callbacks of the two delete handlers, built for
    [x] made of name characters and given a string, return and take away
    one row at most: the first with identifier [user_<x>], or
    [group_<x>]. The rows before it and every row after it, a second row
    with that identifier among them, stay where they were; popovers and
    error region are untouched. *)
Theorem delete_success_removes_first_only
    (x s : string) (ct : option string) (d : dom) :
  by_id_in_document select ->
  name_chars x = true ->
  removed_first ("user_" +++ x) d
    (run_callback select jq (DeleteUserSuccess x) (JString s) ct d)
  /\ removed_first ("group_" +++ x) d
       (run_callback select jq (DeleteGroupSuccess x) (JString s) ct d).
Proof.
  intros Hsel Hx. cbn [run_callback].
  rewrite (delete_user_success_string x s d Hsel Hx).
  rewrite (delete_group_success_string x s d Hsel Hx).
  split; apply removed_first_intro.
Qed.

(** X12. A confirmed click on the delete control of a row [group_<x>],
    [x] being made of name characters, leaves the page as it is and
    sends one request: a post to [user_url] with [group] = [x] and [obj]
    = [obj_id], read as JSON. When it succeeds with a string, the first
    row with the clicked row's identifier is removed; with anything else
    nothing changes. *)
Theorem delete_group_confirmed_removes (r : row) (x : string) (d : dom) :
  by_id_in_document select ->
  row_id r = "group_" +++ x ->
  name_chars x = true ->
  confirm ("Remove this group: " +++ js_to_string (name_html r)) = true ->
  let q := Post user_url [("group", JString x); ("obj", obj_id)]
             (DeleteGroupSuccess x) "json" in
  delete_group_click user_url obj_id confirm r d = (d, [q])
  /\ (forall (s : string) (ct : option string) (d1 : dom),
        deliver select jq q (Succeeded (JString s) ct) d1
        = mk_dom (qtips d1) (remove_first (row_id r) (op_users d1)) (errors d1))
  /\ (forall (code : jsval) (ct : option string) (d1 : dom),
        js_typeof code <> "string" ->
        deliver select jq q (Succeeded code ct) d1 = d1).
Proof.
  intros Hsel Hid Hname Hyes q. subst q. split; [|split].
  - unfold delete_group_click. rewrite Hyes, Hid. reflexivity.
  - intros s ct d1. unfold deliver. cbn [success_callback run_callback].
    rewrite (delete_group_success_string x s d1 Hsel Hname), Hid. reflexivity.
  - intros code ct d1 Hcode. unfold deliver. cbn [success_callback run_callback].
    rewrite (delete_group_success_other x code d1 Hcode). reflexivity.
Qed.

Lemma prefix_restored (p s : string) :
  p +++ js_substring (String.length p) s = s <-> exists x, s = p +++ x.
Proof.
  split.
  - intros H. exists (js_substring (String.length p) s). symmetry. exact H.
  - intros [x ->]. rewrite js_substring_app. reflexivity.
Qed.

Lemma js_substring_suffix (n : nat) (s : string) :
  exists p, s = p +++ js_substring n s
            /\ String.length p = Nat.min n (String.length s).
Proof.
  revert s. induction n as [|n IH]; intros s.
  - exists "". split; [reflexivity|]. reflexivity.
  - destruct s as [|c s]; simpl.
    + exists "". split; reflexivity.
    + destruct (IH s) as (p & Hp & Hlen).
      exists (String c p). simpl. split; [f_equal; exact Hp | f_equal; exact Hlen].
Qed.

(** X13. For a row whose identifier is a plain name, the identifier a
    delete handler sends is that name without its first five (user) or
    six (group) characters, whatever those are, and empty when the name
    is no longer than that. The row taken away on success is the one
    named by the prefix followed by what was sent: a clicked row whose
    identifier does not begin with the prefix is never removed by the
    answer to its own request. *)
Theorem delete_keeps_row_without_prefix (r : row) (d : dom) :
  by_id_in_document select ->
  plain_name (row_id r) = true ->
  confirm ("Remove this user: " +++ js_to_string (name_html r)) = true ->
  confirm ("Remove this group: " +++ js_to_string (name_html r)) = true ->
  let xu := js_substring 5 (row_id r) in
  let xg := js_substring 6 (row_id r) in
  (exists pu, row_id r = pu +++ xu
              /\ String.length pu = Nat.min 5 (String.length (row_id r)))
  /\ (exists pg, row_id r = pg +++ xg
                 /\ String.length pg = Nat.min 6 (String.length (row_id r)))
  /\ snd (delete_user_click user_url obj_id confirm r d)
     = [Post user_url [("user", JString xu); ("obj", obj_id)]
          (DeleteUserSuccess xu) "json"]
  /\ snd (delete_group_click user_url obj_id confirm r d)
     = [Post user_url [("group", JString xg); ("obj", obj_id)]
          (DeleteGroupSuccess xg) "json"]
  /\ ((forall x, row_id r <> "user_" +++ x) ->
      forall code ct d1, In r (op_users d1) ->
        In r (op_users (fst (run_callback select jq (DeleteUserSuccess xu) code ct d1))))
  /\ ((forall x, row_id r <> "group_" +++ x) ->
      forall code ct d1, In r (op_users d1) ->
        In r (op_users (fst (run_callback select jq (DeleteGroupSuccess xg) code ct d1)))).
Proof.
  intros Hsel Hplain Hu Hg xu xg. subst xu xg.
  apply plain_name_chars in Hplain.
  split; [apply js_substring_suffix|]. split; [apply js_substring_suffix|].
  split; [unfold delete_user_click; rewrite Hu; reflexivity|].
  split; [unfold delete_group_click; rewrite Hg; reflexivity|].
  split; intros Hno code ct d1 Hin; cbn [run_callback].
  - destruct (String.eqb (js_typeof code) "string") eqn:E.
    + apply typeof_string in E as [s ->].
      rewrite (delete_user_success_string _ s d1 Hsel
                 (name_chars_substring 5 _ Hplain)).
      cbn [fst op_users]. apply remove_first_keeps; [exact Hin|].
      intros E. symmetry in E. apply (prefix_restored "user_") in E as [x Hx].
      exact (Hno x Hx).
    + apply String.eqb_neq in E.
      rewrite (delete_user_success_other _ code d1 E). exact Hin.
  - destruct (String.eqb (js_typeof code) "string") eqn:E.
    + apply typeof_string in E as [s ->].
      rewrite (delete_group_success_string _ s d1 Hsel
                 (name_chars_substring 6 _ Hplain)).
      cbn [fst op_users]. apply remove_first_keeps; [exact Hin|].
      intros E. symmetry in E. apply (prefix_restored "group_") in E as [x Hx].
      exact (Hno x Hx).
    + apply String.eqb_neq in E.
      rewrite (delete_group_success_other _ code d1 E). exact Hin.
Qed.

End Delete.

Lemma delete_user_confirmed_witness :
  row_id row7 = "user_" +++ "7"
  /\ name_chars "7" = true
  /\ delete_user_click "/perms/user" (JNum "3") (always true) row7 (page [row7; row8])
     = (mk_dom [] [row7; row8] [],
        [Post "/perms/user" [("user", JString "7"); ("obj", JNum "3")]
           (DeleteUserSuccess "7") "json"]).
Proof.
  split; [reflexivity|]. split; [reflexivity|].
  apply (proj1 (proj2
    (delete_user_confirmed "/perms/user" (JNum "3") (always true) (sizzle true) jq7
       row7 "7" (page [row7; row8]) (sizzle_in_document true)
       eq_refl eq_refl eq_refl))).
Defined.

(** C4 as stated fails on a row whose identifier holds a dot: jQuery
    reads ["#user_john.doe"] as the identifier [user_john] with the
    class [doe], no row is selected, and the clicked row stays after a
    string response. *)
Lemma delete_dotted_id_removes_nothing :
  let before := page [row_dotted; row8] in
  let q := Post "/perms/user" [("user", JString "john.doe"); ("obj", JNum "3")]
             (DeleteUserSuccess "john.doe") "json" in
  row_id row_dotted = "user_" +++ "john.doe"
  /\ snd (delete_user_click "/perms/user" (JNum "3") (always true) row_dotted before)
     = [q]
  /\ deliver (sizzle true) jq7 q (Succeeded (JString "1") (Some "application/json"))
       (mk_dom [] [row_dotted; row8] [])
     = mk_dom [] [row_dotted; row8] []
  /\ deliver (sizzle false) jq7 q (Succeeded (JString "1") (Some "application/json"))
       (mk_dom [] [row_dotted; row8] [])
     = mk_dom [] [row_dotted; row8] [].
Proof. cbv zeta. repeat split. Qed.

Lemma delete_declined_witness :
  always false ("Remove this user: " +++ js_to_string (name_html row7)) = false
  /\ delete_user_click "/perms/user" (JNum "3") (always false) row7 (page [row7; row8])
     = (page [row7; row8], []).
Proof.
  split; [reflexivity|].
  apply (proj1 (delete_declined "/perms/user" (JNum "3") (always false) row7
                  (page [row7; row8]))).
  reflexivity.
Defined.

(** C5. On a page with an open popover, a confirmed click on the delete
    control of row [group_13] sends the request with [group] = ["13"] and
    leaves the popover open, where the same click on a user row destroys
    it. *)
Theorem delete_group_leaves_popover :
  let d := page [row7; group13] in
  delete_group_click "/perms/user" (JNum "3") (always true) group13 d
  = (d, [Post "/perms/user" [("group", JString "13"); ("obj", JNum "3")]
           (DeleteGroupSuccess "13") "json"])
  /\ qtips (fst (delete_group_click "/perms/user" (JNum "3") (always true) group13 d))
     = [an_open_popover]
  /\ qtips (fst (delete_user_click "/perms/user" (JNum "3") (always true) row7 d))
     = [].
Proof. repeat split. Qed.

Lemma delete_success_removes_first_only_witness :
  name_chars "7" = true
  /\ op_users (fst (run_callback (sizzle true) jq7 (DeleteUserSuccess "7")
                      (JString "1") None (page [row8; row7; row7'])))
     = [row8] ++ [row7'].
Proof.
  split; [reflexivity|].
  apply (proj1 (proj2 (proj2 (proj2 (proj1
    (delete_success_removes_first_only (sizzle true) jq7 "7" "1" None
       (page [row8; row7; row7']) (sizzle_in_document true) eq_refl)))))
    [row8] row7 [row7']).
  - reflexivity.
  - reflexivity.
  - intros r [<- | []]. discriminate.
Defined.

Lemma delete_group_confirmed_removes_witness :
  row_id group13 = "group_" +++ "13"
  /\ name_chars "13" = true
  /\ delete_group_click "/perms/user" (JNum "3") (always true) group13
       (page [row7; group13])
     = (page [row7; group13],
        [Post "/perms/user" [("group", JString "13"); ("obj", JNum "3")]
           (DeleteGroupSuccess "13") "json"]).
Proof.
  split; [reflexivity|]. split; [reflexivity|].
  exact (proj1 (delete_group_confirmed_removes "/perms/user" (JNum "3") (always true)
                  (sizzle false) jq7 group13 "13" (page [row7; group13])
                  (sizzle_in_document false) eq_refl eq_refl eq_refl)).
Defined.

Lemma delete_keeps_row_without_prefix_witness :
  plain_name (row_id team13) = true
  /\ (forall x, row_id team13 <> "group_" +++ x)
  /\ In team13
       (op_users (fst (run_callback (sizzle true) jq7 (DeleteGroupSuccess "3")
                         (JString "1") None (page [team13; group13])))).
Proof.
  assert (H : forall x, row_id team13 <> "group_" +++ x) by (intros x; discriminate).
  split; [reflexivity|]. split; [exact H|].
  apply (proj2 (proj2 (proj2 (proj2 (proj2
    (delete_keeps_row_without_prefix "/perms/user" (JNum "3") (always true)
       (sizzle true) jq7 team13 (page [team13; group13])
       (sizzle_in_document true) eq_refl eq_refl eq_refl))))) H).
  left; reflexivity.
Defined.

(** ** Initialization, again *)

(** C7. Initialization is idempotent on the bindings: running it again,
    any number of times and from any bindings, gives the bindings of one
    run. After it a click on the add-user button runs its handler once, a
    click on a permissions link runs its handler once, a click on a
    delete control runs once the handler of each kind of row it is in,
    and no click runs any handler twice. *)
Theorem ready_idempotent (b : bindings) (n : nat) :
  let b' := Nat.iter (S n) ready b in
  ready (ready b) = ready b
  /\ b' = ready b
  /\ fired b' AddUserButton = [HAddUser]
  /\ (forall href, fired b' (PermissionsLink href) = [HPermissions])
  /\ (forall r outer,
        fired b' (DeleteControl r outer)
        = (if inside "user" r outer then [HDeleteUser] else [])
          ++ (if inside "group" r outer then [HDeleteGroup] else []))
  /\ (forall r,
        fired b' (DeleteControl r [])
        = (if has_class "user" r then [HDeleteUser] else [])
          ++ (if has_class "group" r then [HDeleteGroup] else []))
  /\ (forall t h, count_occ handler_eq_dec (fired b' t) h <= 1).
Proof.
  cbv zeta. rewrite iter_ready_bound_once, !ready_bound_once.
  split; [reflexivity|]. split; [reflexivity|]. split; [reflexivity|].
  split; [reflexivity|].
  assert (Hdelete : forall r outer,
             fired bound_once (DeleteControl r outer)
             = (if inside "user" r outer then [HDeleteUser] else [])
               ++ (if inside "group" r outer then [HDeleteGroup] else [])).
  { intros r outer. unfold fired. simpl.
    destruct (inside "user" r outer), (inside "group" r outer); reflexivity. }
  split; [exact Hdelete|]. split.
  - intros r. rewrite Hdelete. unfold inside. cbn [existsb].
    rewrite !orb_false_r. reflexivity.
  - intros t h. destruct t as [| r outer | href |]; unfold fired; simpl.
    + destruct h; simpl; lia.
    + destruct (inside "user" r outer), (inside "group" r outer), h; simpl; lia.
    + destruct h; simpl; lia.
    + lia.
Qed.

(** Without the release, a second binding would make one click run the
    handler twice. *)
Example bound_twice_fires_twice :
  fired (live UserDelete "click" HDeleteUser (ready (mk_bindings [] [])))
    (DeleteControl row7 [])
  = [HDeleteUser; HDeleteUser].
Proof. reflexivity. Qed.

Example ready_releases_old_bindings :
  ready (mk_bindings [("click", HAddUser); ("click", HAddUser)]
           [(Permissions, "click", HPermissions); (UserDelete, "click", HDeleteUser);
            (Permissions, "click", HPermissions)])
  = bound_once.
Proof. reflexivity. Qed.

(** ** The popover *)

Lemma submit_runs_bound (form : nat) (d : dom) :
  submit form d
  = (match submit_bound form d with O => d | S _ => errors_empty d end,
     repeat (AjaxSubmit form (mk_ajax_options (Some UpdateUserPermissions) None))
            (submit_bound form d)).
Proof.
  unfold submit. induction (submit_bound form d) as [|n IH]; [reflexivity|].
  rewrite Nat.iter_succ, IH. cbn [fst snd submit_handler].
  f_equal.
  - destruct n; reflexivity.
  - symmetry. apply repeat_cons.
Qed.

Lemma submit_bound_on_show (form : nat) (d : dom) :
  submit_bound form (on_show d)
  = if Nat.ltb form (length (qtips d)) then S (submit_bound form d) else 0.
Proof.
  unfold submit_bound, on_show, bind_user_perm_form. simpl.
  rewrite nth_error_map.
  destruct (nth_error (qtips d) form) as [p|] eqn:E; simpl.
  - assert (H : form < length (qtips d)) by (apply nth_error_Some; congruence).
    apply Nat.ltb_lt in H. rewrite H. reflexivity.
  - apply nth_error_None in E. apply Nat.ltb_ge in E. rewrite E. reflexivity.
Qed.

Lemma on_show_length (d : dom) : length (qtips (on_show d)) = length (qtips d).
Proof. apply length_map. Qed.

Section Popover.

Variable user_url : string.
Variable obj_id : jsval.
Variable confirm : string -> bool.
Variable select : engine.
Variable jq : jsval -> list row.

Lemma click_open (op : open_op) (d : dom) :
  click user_url obj_id confirm bound_once (open_target op) d
  = (mk_dom [opened user_url op] (op_users d) (errors d),
     [QtipContent (content_url (pop_options (opened user_url op)))]).
Proof. destruct op; reflexivity. Qed.

Lemma pages_after_open (ops : list open_op) (d : dom) :
  Forall2 (fun op d' => qtips d' = [opened user_url op]) ops
    (pages_after user_url obj_id confirm bound_once (map open_target ops) d).
Proof.
  revert d. induction ops as [|op ops IH]; intros d; simpl; constructor.
  - rewrite click_open. reflexivity.
  - apply IH.
Qed.

(** C6. After initialization, along any sequence of add-user and
    edit-permissions clicks, the page after each click holds exactly one
    popover, the one that click opened: the ones before it are gone. *)
Theorem at_most_one_popover (b : bindings) (ops : list open_op) (d : dom) :
  let after := pages_after user_url obj_id confirm (ready b) (map open_target ops) d in
  Forall (fun d' => length (qtips d') <= 1) after
  /\ Forall2 (fun op d' => qtips d' = [opened user_url op]) ops after.
Proof.
  cbv zeta. rewrite ready_bound_once.
  pose proof (pages_after_open ops d) as H. split; [|exact H].
  induction H as [|op d' ops ds Hq _ IH]; constructor; [|exact IH].
  rewrite Hq. simpl. lia.
Qed.

(** The same bound holds along every event of the page, not only those
    that open a popover: no handler and no callback adds a popover to a
    page that holds one. *)
Lemma run_handler_popovers (h : handler) (t : target) (d : dom) :
  length (qtips d) <= 1 ->
  length (qtips (fst (run_handler user_url obj_id confirm h t d))) <= 1.
Proof.
  intros H. destruct h, t; simpl; try lia; try exact H.
  - unfold delete_user_click. destruct (confirm _); simpl; lia.
  - unfold delete_group_click. destruct (confirm _); simpl; lia.
Qed.

Lemma click_popovers (b : bindings) (t : target) (d : dom) :
  length (qtips d) <= 1 ->
  length (qtips (fst (click user_url obj_id confirm b t d))) <= 1.
Proof.
  unfold click. generalize (@nil request). revert d.
  induction (fired b t) as [|h hs IH]; intros d sent H; simpl; [exact H|].
  destruct (run_handler user_url obj_id confirm h t d) as [d' sent'] eqn:E.
  apply IH. change d' with (fst (d', sent')). rewrite <- E.
  apply run_handler_popovers; exact H.
Qed.

Lemma callback_popovers (c : callback) (body : jsval) (ct : option string) (d : dom) :
  qtips (fst (run_callback select jq c body ct d)) = qtips d
  \/ qtips (fst (run_callback select jq c body ct d)) = map hide (qtips d).
Proof.
  destruct c as [id | id |]; cbn [run_callback].
  - left. unfold delete_user_success.
    destruct (String.eqb _ _); [destruct (select _ _)|]; reflexivity.
  - left. unfold delete_group_success.
    destruct (String.eqb _ _); [destruct (select _ _)|]; reflexivity.
  - unfold update_user_permissions. destruct (is_json ct).
    + destruct (String.eqb _ _).
      * right. cbv zeta. destruct (select _ _); reflexivity.
      * left. cbn [fst]. rewrite (append_errors_fold body). reflexivity.
    + right. cbv zeta. destruct (select _ _); [|reflexivity].
      destruct (Nat.eqb _ 1); reflexivity.
Qed.


Lemma deliver_popovers (q : request) (o : outcome) (d : dom) :
  length (qtips (deliver select jq q o d)) = length (qtips d).
Proof.
  assert (Hcb : forall c body ct,
             length (qtips (fst (run_callback select jq c body ct d)))
             = length (qtips d)).
  { intros c body ct.
    destruct (callback_popovers c body ct d) as [-> | ->];
      [reflexivity | apply length_map]. }
  destruct o as [body ct| |]; simpl.
  - destruct (success_callback q); [apply Hcb | reflexivity].
  - destruct (success_callback q); [apply Hcb | reflexivity].
  - destruct (error_callback q); [apply Hcb | reflexivity].
Qed.

(** ** Requests that fail *)

Lemma no_error_callback (q : request) :
  error_callback q = None -> unchanged_on_failure select jq q.
Proof. intros H d. unfold deliver. rewrite H. reflexivity. Qed.



(** The same for whatever a click sends, under any bindings. *)
Lemma click_requests_unchanged_on_failure (b : bindings) (t : target) (d : dom) :
  Forall (unchanged_on_failure select jq) (snd (click user_url obj_id confirm b t d)).
Proof.
  unfold click.
  assert (H0 : Forall (unchanged_on_failure select jq) (@nil request)) by constructor.
  revert H0. generalize (@nil request). revert d.
  induction (fired b t) as [|h hs IH]; intros d sent H; simpl; [exact H|].
  destruct (run_handler user_url obj_id confirm h t d) as [d' sent'] eqn:E.
  apply IH. apply Forall_app; split; [exact H|].
  change sent' with (snd (d', sent')). rewrite <- E.
  destruct h, t; simpl; try constructor;
    try (apply no_error_callback; reflexivity); try constructor.
  - unfold delete_user_click. destruct (confirm _); simpl; constructor;
      [apply no_error_callback; reflexivity | constructor].
  - unfold delete_group_click. destruct (confirm _); simpl; constructor;
      [apply no_error_callback; reflexivity | constructor].
Qed.

End Popover.



(** ** Clicks, submits and the life of a popover *)

Section Events.

Variable user_url : string.
Variable obj_id : jsval.
Variable confirm : string -> bool.
Variable select : engine.
Variable jq : jsval -> list row.

Lemma run_handler_frame (h : handler) (t : target) (d : dom) :
  op_users (fst (run_handler user_url obj_id confirm h t d)) = op_users d
  /\ errors (fst (run_handler user_url obj_id confirm h t d)) = errors d.
Proof.
  destruct h, t; simpl; try (split; reflexivity).
  - unfold delete_user_click. destruct (confirm _); split; reflexivity.
  - unfold delete_group_click. destruct (confirm _); split; reflexivity.
Qed.

(** X14. Under any bindings, a click on any element leaves the rows and
    the error region as they are: the click handlers act on the popovers
    only, and rows change only when a response arrives. *)
Theorem clicks_never_touch_rows (b : bindings) (t : target) (d : dom) :
  op_users (fst (click user_url obj_id confirm b t d)) = op_users d
  /\ errors (fst (click user_url obj_id confirm b t d)) = errors d.
Proof.
  unfold click. generalize (@nil request). revert d.
  induction (fired b t) as [|h hs IH]; intros d sent; simpl; [split; reflexivity|].
  destruct (run_handler user_url obj_id confirm h t d) as [d' sent'] eqn:E.
  destruct (run_handler_frame h t d) as [Hu He]. rewrite E in Hu, He. simpl in Hu, He.
  rewrite <- Hu, <- He. apply IH.
Qed.

(** X15. Under any bindings, every request that leaves the page on a
    click is either the overlay's fetch of the content of the popover
    being opened, or a post to [user_url], read as JSON, carrying
    [obj_id] and one [user] or [group] identifier with the matching
    success callback; and only a click on a delete control sends such a
    post. *)
Theorem click_requests_are_deletions (b : bindings) (t : target) (d : dom) :
  Forall (fun q => delete_request user_url obj_id q \/ content_request q)
    (snd (click user_url obj_id confirm b t d))
  /\ ((forall r outer, t <> DeleteControl r outer) ->
      Forall content_request (snd (click user_url obj_id confirm b t d))).
Proof.
  unfold click.
  set (P := fun sent : list request =>
              Forall (fun q => delete_request user_url obj_id q \/ content_request q) sent
              /\ ((forall r outer, t <> DeleteControl r outer) ->
                  Forall content_request sent)).
  assert (Hstep : forall h d0, P (snd (run_handler user_url obj_id confirm h t d0))).
  { assert (Hnil : P []) by (split; [constructor | intros _; constructor]).
    assert (Hfetch : forall url, P [QtipContent url]).
    { intros url. split; [|intros _].
      - constructor; [right; exists url; reflexivity | constructor].
      - constructor; [exists url; reflexivity | constructor]. }
    intros h d0. destruct h, t; simpl; try exact Hnil; try apply Hfetch.
    - unfold delete_user_click. destruct (confirm _); simpl; [|exact Hnil].
      split; [|intros H; exfalso; exact (H r outer eq_refl)].
      constructor; [|constructor]. left.
      exists "user", (js_substring 5 (row_id r)),
        (DeleteUserSuccess (js_substring 5 (row_id r))).
      split; [reflexivity | left; split; reflexivity].
    - unfold delete_group_click. destruct (confirm _); simpl; [|exact Hnil].
      split; [|intros H; exfalso; exact (H r outer eq_refl)].
      constructor; [|constructor]. left.
      exists "group", (js_substring 6 (row_id r)),
        (DeleteGroupSuccess (js_substring 6 (row_id r))).
      split; [reflexivity | right; split; reflexivity]. }
  set (F := fun (acc : dom * list request) (h : handler) =>
              let '(d', sent) := run_handler user_url obj_id confirm h t (fst acc) in
              (d', snd acc ++ sent)).
  assert (Hgen : forall hs d0 sent, P sent -> P (snd (fold_left F hs (d0, sent)))).
  { induction hs as [|h hs IH]; intros d0 sent H; simpl; [exact H|].
    destruct (run_handler user_url obj_id confirm h t d0) as [d' sent'] eqn:E.
    assert (EF : F (d0, sent) h = (d', sent ++ sent')).
    { unfold F. simpl. rewrite E. reflexivity. }
    rewrite EF. apply IH. pose proof (Hstep h d0) as Hs. rewrite E in Hs. simpl in Hs.
    destruct H as [Hf0 Hn0], Hs as [Hf Hn]. split.
    - apply Forall_app; split; assumption.
    - intros Ht. apply Forall_app; split; [exact (Hn0 Ht) | exact (Hn Ht)]. }
  apply (Hgen (fired b t) d []). split; [constructor | intros _; constructor].
Qed.

(** X16. Along every sequence of events (clicks on any element,
    popovers shown, forms submitted, requests ending well or not, in any
    order and under any bindings) a page that holds at most one popover
    keeps holding at most one. *)
Theorem one_popover_along_events (b : bindings) (es : list event) (d : dom) :
  length (qtips d) <= 1 ->
  length (qtips (run user_url obj_id confirm select jq b es d)) <= 1.
Proof.
  unfold run. revert d.
  induction es as [|e es IH]; intros d H; cbn [fold_left]; [exact H|].
  apply IH. destruct e as [t | | form | q o]; cbn [step].
  - apply click_popovers; exact H.
  - rewrite on_show_length. exact H.
  - rewrite submit_runs_bound. cbn [fst]. destruct (submit_bound form d); exact H.
  - rewrite deliver_popovers. exact H.
Qed.

(** X17. The end of a request never opens, closes or replaces a
    popover: the popovers after it are those of before, either as they
    were or all hidden. *)
Theorem response_keeps_or_hides_popovers (q : request) (o : outcome) (d : dom) :
  qtips (deliver select jq q o d) = qtips d
  \/ qtips (deliver select jq q o d) = map hide (qtips d).
Proof.
  destruct o as [body ct| |]; simpl.
  - destruct (success_callback q); [apply callback_popovers | left; reflexivity].
  - destruct (success_callback q); [apply callback_popovers | left; reflexivity].
  - destruct (error_callback q); [apply callback_popovers | left; reflexivity].
Qed.

(** X18. [bind_user_perm_form] adds a handler each time it runs: when
    the popover at position [form] has been shown [k] more times, one
    submit of its form sends [k] more requests, each an [ajaxSubmit] of
    that form with [update_user_permissions] as its success callback and
    no error callback. *)
Theorem each_show_adds_a_submission (form k : nat) (d : dom) :
  form < length (qtips d) ->
  snd (submit form (Nat.iter k on_show d))
  = repeat (AjaxSubmit form (mk_ajax_options (Some UpdateUserPermissions) None))
           (submit_bound form d + k).
Proof.
  intros H. rewrite submit_runs_bound. cbn [snd]. f_equal.
  assert (Hlen : forall n, length (qtips (Nat.iter n on_show d)) = length (qtips d)).
  { induction n as [|n IHn]; [reflexivity|].
    rewrite Nat.iter_succ, on_show_length. exact IHn. }
  apply Nat.ltb_lt in H.
  induction k as [|k IH]; [simpl; lia|].
  rewrite Nat.iter_succ, submit_bound_on_show, Hlen, H, IH. lia.
Qed.

(** X19. Opening a popover starts afresh. After initialization, a click
    that opens a popover, the popover shown once and its form submitted:
    whatever popovers and handlers the page had before, exactly one
    request is sent, the error region is emptied, the rows are those of
    before and the popover is the one just opened, visible. *)
Theorem open_show_submit_sends_one (b : bindings) (op : open_op) (d : dom) :
  let shown :=
    run user_url obj_id confirm select jq (ready b) [Click (open_target op); Shown] d in
  submit 0 shown
  = (mk_dom [mk_popover (open_target op) (pop_options (opened user_url op)) true 1]
       (op_users d) [],
     [AjaxSubmit 0 (mk_ajax_options (Some UpdateUserPermissions) None)]).
Proof.
  cbv zeta. rewrite ready_bound_once. destruct op; reflexivity.
Qed.

(** X20. After initialization a click on an element that is none of
    the controls, or on a delete control that is inside no element of
    class [user] or [group] (neither its grandparent nor another of its
    ancestors carries the class), does nothing and sends nothing. *)
Theorem clicks_elsewhere_do_nothing (b : bindings) (d : dom) :
  click user_url obj_id confirm (ready b) OtherElement d = (d, [])
  /\ (forall r outer,
        inside "user" r outer = false -> inside "group" r outer = false ->
        click user_url obj_id confirm (ready b) (DeleteControl r outer) d = (d, [])).
Proof.
  rewrite ready_bound_once. split; [reflexivity|].
  intros r outer Hu Hg. unfold click, fired. simpl. rewrite Hu, Hg. reflexivity.
Qed.

End Events.

Lemma one_popover_along_events_witness :
  length (qtips (page [row7])) <= 1
  /\ length (qtips (run "/perms/user" (JNum "3") (always true) (sizzle true) jq7
                      bound_once
                      [Click (PermissionsLink "/perms/7"); Shown; Submit 0;
                       Response (AjaxSubmit 0
                                   (mk_ajax_options (Some UpdateUserPermissions) None))
                                (Succeeded (JString markup7) (Some "text/html"));
                       Click (DeleteControl row7 []); Click AddUserButton]
                      (page [row7]))) <= 1.
Proof.
  assert (H : length (qtips (page [row7])) <= 1) by (simpl; lia).
  split; [exact H|].
  exact (one_popover_along_events "/perms/user" (JNum "3") (always true) (sizzle true)
           jq7 bound_once _ (page [row7]) H).
Defined.

Lemma each_show_adds_a_submission_witness :
  0 < length (qtips (page [row7]))
  /\ length (snd (submit 0 (Nat.iter 2 on_show (page [row7])))) = 3.
Proof.
  assert (H : 0 < length (qtips (page [row7]))) by (simpl; lia).
  split; [exact H|].
  rewrite (each_show_adds_a_submission 0 2 (page [row7]) H). reflexivity.
Defined.

Lemma clicks_elsewhere_do_nothing_witness :
  inside "user" (mk_row "x_1" [] None "") ["panel"] = false
  /\ inside "group" (mk_row "x_1" [] None "") ["panel"] = false
  /\ click "/perms/user" (JNum "3") (always true) (ready (mk_bindings [] []))
       (DeleteControl (mk_row "x_1" [] None "") ["panel"]) (page [row7])
     = (page [row7], []).
Proof.
  split; [reflexivity|]. split; [reflexivity|].
  apply (proj2 (clicks_elsewhere_do_nothing "/perms/user" (JNum "3") (always true)
                  (mk_bindings [] []) (page [row7])));
    reflexivity.
Defined.
